(** * The geofeed format validator ([.github/scripts/validate-geofeed.py])

    A shallow embedding of the class [IPGeoFeedValidator] and of [main],
    with the parts of the Python runtime the script relies on: string
    methods, the [csv] reader with its default dialect, and the interface
    of the [ipaddr] module. *)

From Stdlib Require Import String Ascii ZArith Lia List Bool DecimalString.
From stdpp Require Import gmap strings list.

Local Open Scope string_scope.
Local Open Scope Z_scope.
Local Open Scope list_scope.

(** ** Python strings

    [str] is the text type of Python 3: a string is a sequence of
    characters, a character is a code point, and [len] counts characters.
    The model covers the text whose code points are below 256, one [ascii]
    for each character, with the character classes Python 3 gives these
    code points. *)

Module Py.

Definition LF : ascii := "010"%char.
Definition CR : ascii := "013"%char.
Definition NUL : ascii := "000"%char.

(** [c.isspace()]: the whitespace of [str.strip()].  Below 256 these are
    the code points 9 to 13, 28 to 31, 32, 133 and 160. *)
Definition isspace (c : ascii) : bool :=
  let n := nat_of_ascii c in
  ((9 <=? n)%nat && (n <=? 13)%nat)
  || ((28 <=? n)%nat && (n <=? 32)%nat)
  || (n =? 133)%nat || (n =? 160)%nat.

(** [c.isalpha()]: the letters.  Below 256 these are the letters of
    ASCII, the code points 170, 181 and 186, and the code points 192 to 255
    but for 215 and 247 (the multiplication and division signs). *)
Definition isalpha_char (c : ascii) : bool :=
  let n := nat_of_ascii c in
  ((65 <=? n)%nat && (n <=? 90)%nat) || ((97 <=? n)%nat && (n <=? 122)%nat)
  || (n =? 170)%nat || (n =? 181)%nat || (n =? 186)%nat
  || ((192 <=? n)%nat && negb (n =? 215)%nat && negb (n =? 247)%nat).

Fixpoint all_chars (p : ascii -> bool) (s : string) : bool :=
  match s with
  | EmptyString => true
  | String c s' => p c && all_chars p s'
  end.

(** [s.isalpha()]: at least one character, and all of them alphabetic. *)
Definition isalpha (s : string) : bool :=
  match s with
  | EmptyString => false
  | _ => all_chars isalpha_char s
  end.

(** [c in s] for a one-character string [c]. *)
Fixpoint contains (c : ascii) (s : string) : bool :=
  match s with
  | EmptyString => false
  | String d s' => Ascii.eqb d c || contains c s'
  end.

Definition is_empty (s : string) : bool :=
  match s with EmptyString => true | _ => false end.

(** The two scans of [do_strip]/[do_xstrip]: drop the leading, respectively
    the trailing, characters that satisfy [p]. *)
Fixpoint lstrip_with (p : ascii -> bool) (s : string) : string :=
  match s with
  | EmptyString => EmptyString
  | String c s' => if p c then lstrip_with p s' else s
  end.

Fixpoint rstrip_with (p : ascii -> bool) (s : string) : string :=
  match s with
  | EmptyString => EmptyString
  | String c s' =>
      let t := rstrip_with p s' in
      if is_empty t && p c then EmptyString else String c t
  end.

(** [s.strip()] *)
Definition strip (s : string) : string :=
  lstrip_with isspace (rstrip_with isspace s).

(** [s.rstrip(chars)] *)
Definition rstrip (chars : string) (s : string) : string :=
  rstrip_with (fun c => contains c chars) s.

(** [s.startswith(p)] *)
Definition startswith (p s : string) : bool := String.prefix p s.

(** [s.split(sep)] for a one-character separator: never the empty list. *)
Fixpoint split (sep : ascii) (s : string) : list string :=
  match s with
  | EmptyString => [EmptyString]
  | String c s' =>
      if Ascii.eqb c sep then EmptyString :: split sep s'
      else match split sep s' with
           | p :: ps => String c p :: ps
           | [] => [String c EmptyString]
           end
  end.

(** ['%d' % n] for a length. *)
Definition str_of_nat (n : nat) : string :=
  NilZero.string_of_uint (Nat.to_uint n).

End Py.

(** ** Exceptions and results *)

Inductive exn : Type :=
| csv_Error (msg : string)
| AssertionError
| IndexError.

Inductive result (A : Type) : Type :=
| Ok (a : A)
| Raise (e : exn).
Arguments Ok {A} a.
Arguments Raise {A} e.

(** ** [csv.reader] with the default dialect

    The reader of [_csv.c] for the dialect [excel]: a comma as delimiter,
    the double quote as quote character, [doublequote] set, no escape
    character, [strict] and [skipinitialspace] unset, [QUOTE_MINIMAL].
    Without an escape character the three escape states of the parser are
    never entered, and they are left out. *)

Module csv.

Inductive ParserState : Type :=
| START_RECORD | START_FIELD | IN_FIELD | IN_QUOTED_FIELD
| QUOTE_IN_QUOTED_FIELD | EAT_CRNL.

Definition ParserState_eqb (a b : ParserState) : bool :=
  match a, b with
  | START_RECORD, START_RECORD | START_FIELD, START_FIELD
  | IN_FIELD, IN_FIELD | IN_QUOTED_FIELD, IN_QUOTED_FIELD
  | QUOTE_IN_QUOTED_FIELD, QUOTE_IN_QUOTED_FIELD | EAT_CRNL, EAT_CRNL => true
  | _, _ => false
  end.

Definition delimiter : ascii := ","%char.
Definition quotechar : ascii := "034"%char.
Definition field_limit : Z := 131072.

(** The reader object: parser state, fields saved so far, field under
    construction. *)
Record ReaderObj : Type := mkReader {
  state : ParserState;
  fields : list string;
  field : string
}.

Definition parse_reset : ReaderObj :=
  {| state := START_RECORD; fields := []; field := EmptyString |}.

Definition set_state (st : ParserState) (r : ReaderObj) : ReaderObj :=
  {| state := st; fields := fields r; field := field r |}.

Definition parse_save_field (r : ReaderObj) : ReaderObj :=
  {| state := state r; fields := fields r ++ [field r]; field := EmptyString |}.

Definition parse_add_char (r : ReaderObj) (c : ascii) : result ReaderObj :=
  if field_limit <=? Z.of_nat (String.length (field r))
  then Raise (csv_Error "field larger than field limit (131072)")
  else Ok {| state := state r; fields := fields r;
             field := field r +:+ String c EmptyString |}.

Definition is_newline (c : ascii) : bool :=
  Ascii.eqb c Py.LF || Ascii.eqb c Py.CR.

(** [parse_process_char]; [None] is the end-of-line marker the reader feeds
    after the last character of a line. *)
Definition parse_process_char (r : ReaderObj) (c : option ascii)
  : result ReaderObj :=
  let start_field (r : ReaderObj) :=
    match c with
    | None => Ok (set_state START_RECORD (parse_save_field r))
    | Some ch =>
        if is_newline ch then Ok (set_state EAT_CRNL (parse_save_field r))
        else if Ascii.eqb ch quotechar then Ok (set_state IN_QUOTED_FIELD r)
        else if Ascii.eqb ch delimiter then Ok (parse_save_field r)
        else match parse_add_char r ch with
             | Ok r' => Ok (set_state IN_FIELD r')
             | Raise e => Raise e
             end
    end in
  match state r with
  | START_RECORD =>
      match c with
      | None => Ok r
      | Some ch =>
          if is_newline ch then Ok (set_state EAT_CRNL r)
          else start_field (set_state START_FIELD r)
      end
  | START_FIELD => start_field r
  | IN_FIELD =>
      match c with
      | None => Ok (set_state START_RECORD (parse_save_field r))
      | Some ch =>
          if is_newline ch then Ok (set_state EAT_CRNL (parse_save_field r))
          else if Ascii.eqb ch delimiter
               then Ok (set_state START_FIELD (parse_save_field r))
          else parse_add_char r ch
      end
  | IN_QUOTED_FIELD =>
      match c with
      | None => Ok r
      | Some ch =>
          if Ascii.eqb ch quotechar then Ok (set_state QUOTE_IN_QUOTED_FIELD r)
          else parse_add_char r ch
      end
  | QUOTE_IN_QUOTED_FIELD =>
      match c with
      | None => Ok (set_state START_RECORD (parse_save_field r))
      | Some ch =>
          if Ascii.eqb ch quotechar then
            match parse_add_char r ch with
            | Ok r' => Ok (set_state IN_QUOTED_FIELD r')
            | Raise e => Raise e
            end
          else if Ascii.eqb ch delimiter
               then Ok (set_state START_FIELD (parse_save_field r))
          else if is_newline ch
               then Ok (set_state EAT_CRNL (parse_save_field r))
          else match parse_add_char r ch with
               | Ok r' => Ok (set_state IN_FIELD r')
               | Raise e => Raise e
               end
      end
  | EAT_CRNL =>
      match c with
      | None => Ok (set_state START_RECORD r)
      | Some ch =>
          if is_newline ch then Ok r
          else Raise (csv_Error
            "new-line character seen in unquoted field - do you need to open the file in universal-newline mode?")
      end
  end.

(** The inner loop of [Reader_iternext] over the characters of one line.
    A NUL is a character like any other. *)
Fixpoint process_chars (r : ReaderObj) (line : string) : result ReaderObj :=
  match line with
  | EmptyString => Ok r
  | String c rest =>
      match parse_process_char r (Some c) with
      | Ok r' => process_chars r' rest
      | Raise e => Raise e
      end
  end.

Definition process_line (r : ReaderObj) (line : string) : result ReaderObj :=
  match process_chars r line with
  | Ok r' => parse_process_char r' None
  | Raise e => Raise e
  end.

(** [list(csv.reader([line]))]: the rows the reader yields over a one-line
    input.  The first call of [Reader_iternext] consumes the line; if the
    parser is then back at [START_RECORD] the row is complete, otherwise the
    input is exhausted and the pending field, if any, closes the row.  The
    next call resets the parser, finds no input and stops. *)
Definition reader (line : string) : result (list (list string)) :=
  match process_line parse_reset line with
  | Raise e => Raise e
  | Ok r =>
      if ParserState_eqb (state r) START_RECORD then Ok [fields r]
      else if negb (Py.is_empty (field r))
              || ParserState_eqb (state r) IN_QUOTED_FIELD
           then Ok [fields (parse_save_field r)]
      else Ok []
  end.

End csv.

(** ** The interface of [ipaddr]

    Parsing of addresses and networks and the private-range test belong to
    the [ipaddr] module, not to the script.  The script sees a network
    object through [_ip], [network] and [is_private]; [network] is computed
    from [_ip] and the prefix length as [ipaddr] does it. *)

Module ipaddr.

(** A parsed network: [_BaseNet] with its [_version], [_ip], [_prefixlen]. *)
Record BaseNet : Type := mkNet {
  _version : Z;
  _ip : Z;
  _prefixlen : Z
}.

Definition _max_prefixlen (n : BaseNet) : Z :=
  if _version n =? 4 then 32 else 128.

Definition _ALL_ONES (n : BaseNet) : Z := 2 ^ _max_prefixlen n - 1.

(** [_ip_int_from_prefix]: the netmask as an integer. *)
Definition netmask (n : BaseNet) : Z :=
  Z.lxor (_ALL_ONES n) (Z.shiftr (_ALL_ONES n) (_prefixlen n)).

Definition hostmask (n : BaseNet) : Z :=
  Z.lxor (netmask n) (_ALL_ONES n).

(** [n.network._ip] *)
Definition network_ip (n : BaseNet) : Z := Z.land (_ip n) (netmask n).

(** What the constructors accept is the module's business: [None] stands
    for the exception a constructor raises on a string it rejects. *)
Record module : Type := mkModule {
  BaseIP : Type;
  IPAddress : string -> option BaseIP;
  ip_is_private : BaseIP -> bool;
  IPNetwork : string -> option BaseNet;
  net_is_private : BaseNet -> bool
}.

End ipaddr.

(** ** The validator object *)

(** The attributes of an [IPGeoFeedValidator].  [output_log] maps a
    severity to the lines logged under it, oldest first.  [output_stream]
    is [None] when logging is disabled, and otherwise holds what has been
    written to the stream, in order.  [prefixes] is never read or written
    after construction and is left out; [line] and [is_correct_line] are
    assigned by [_ValidateLine] before anything reads them. *)
Record IPGeoFeedValidator : Type := mkValidator {
  line_number : nat;
  line : string;
  is_correct_line : bool;
  output_log : gmap string (list string);
  output_stream : option (list string)
}.

(** A method body: it reads and updates [self], and returns or raises. *)
Definition M (A : Type) : Type :=
  IPGeoFeedValidator -> result (A * IPGeoFeedValidator).

Definition ret {A : Type} (a : A) : M A := fun self => Ok (a, self).

Definition bind {A B : Type} (m : M A) (f : A -> M B) : M B :=
  fun self =>
    match m self with
    | Ok (a, self') => f a self'
    | Raise e => Raise e
    end.

Definition raise {A : Type} (e : exn) : M A := fun _ => Raise e.

Definition lift {A : Type} (r : result A) : M A :=
  fun self => match r with Ok a => Ok (a, self) | Raise e => Raise e end.

Definition modify (f : IPGeoFeedValidator -> IPGeoFeedValidator) : M unit :=
  fun self => Ok (tt, f self).

Definition get {A : Type} (f : IPGeoFeedValidator -> A) : M A :=
  fun self => Ok (f self, self).

Declare Scope py_scope.
Delimit Scope py_scope with py.
Notation "x <- m ;; f" := (bind m (fun x => f))
  (at level 100, m at next level, right associativity) : py_scope.
Notation "m ;; f" := (bind m (fun _ => f))
  (at level 100, right associativity) : py_scope.
Local Open Scope py_scope.

(** [l[i]] *)
Definition getitem {A : Type} (l : list A) (i : nat) : M A :=
  match l !! i with
  | Some x => ret x
  | None => raise IndexError
  end.

(** [assert(b)] *)
Definition assert_ (b : bool) : M unit :=
  if b then ret tt else raise AssertionError.

Definition set_line_number (n : nat) (self : IPGeoFeedValidator) :=
  {| line_number := n; line := line self;
     is_correct_line := is_correct_line self;
     output_log := output_log self; output_stream := output_stream self |}.

Definition set_line (l : string) (self : IPGeoFeedValidator) :=
  {| line_number := line_number self; line := l;
     is_correct_line := is_correct_line self;
     output_log := output_log self; output_stream := output_stream self |}.

Definition set_is_correct_line (b : bool) (self : IPGeoFeedValidator) :=
  {| line_number := line_number self; line := line self;
     is_correct_line := b;
     output_log := output_log self; output_stream := output_stream self |}.

Definition set_output_log (log : gmap string (list string))
    (self : IPGeoFeedValidator) :=
  {| line_number := line_number self; line := line self;
     is_correct_line := is_correct_line self;
     output_log := log; output_stream := output_stream self |}.

(** [self.output_stream.write(text)] *)
Definition write (text : string) (self : IPGeoFeedValidator) :=
  {| line_number := line_number self; line := line self;
     is_correct_line := is_correct_line self;
     output_log := output_log self;
     output_stream := match output_stream self with
                      | Some w => Some (w ++ [text])
                      | None => None
                      end |}.

Definition nl : string := String Py.LF EmptyString.

(** What logging one diagnostic does to the validator, in the words of the
    specification: the record is marked invalid, the text
    [<SEVERITY>: <message>] and a newline is appended to the log under that
    severity, and written to the sink if there is one.
    [_ReportWithSeverity] below is the code; [_ReportWithSeverity_spec]
    relates the two. *)
Definition diagnostic (severity message : string)
    (self : IPGeoFeedValidator) : IPGeoFeedValidator :=
  let output_line := severity +:+ ": " +:+ message +:+ nl in
  {| line_number := line_number self; line := line self;
     is_correct_line := false;
     output_log :=
       <[severity := default [] (output_log self !! severity) ++ [output_line]]>
         (output_log self);
     output_stream := match output_stream self with
                      | Some w => Some (w ++ [output_line])
                      | None => None
                      end |}.

Section Validator.

Variable lib : ipaddr.module.

(** [__init__], with [sys.stderr] as the stream. *)
Definition __init__ : IPGeoFeedValidator :=
  {| line_number := 0; line := ""; is_correct_line := true;
     output_log := ∅; output_stream := Some [] |}.

(** [SetOutputStream] *)
Definition SetOutputStream (logfile : option (list string)) : M unit :=
  modify (fun self =>
    {| line_number := line_number self; line := line self;
       is_correct_line := is_correct_line self;
       output_log := output_log self; output_stream := logfile |}).

(** [CountErrors] *)
Definition CountErrors (self : IPGeoFeedValidator) (severity : string) : nat :=
  length (default [] (output_log self !! severity)).

(** *** Reporting *)

Definition _ReportWithSeverity (severity message : string) : M unit :=
  modify (set_is_correct_line false);;
  let output_line := severity +:+ ": " +:+ message +:+ nl in
  log <- get output_log;;
  (match log !! severity with
   | None => modify (set_output_log (<[severity := []]> log))
   | Some _ => ret tt
   end);;
  log <- get output_log;;
  modify (set_output_log
            (<[severity := (log !!! severity) ++ [output_line]]> log));;
  modify (write output_line).

Definition _ReportError (message : string) : M unit :=
  _ReportWithSeverity "ERROR" message.

Definition _ReportWarning (message : string) : M unit :=
  _ReportWithSeverity "WARNING" message.

Definition _FlushOutputStream : M unit :=
  ok <- get is_correct_line;;
  if ok then ret tt else
  n <- get line_number;;
  l <- get line;;
  modify (write ("line " +:+ Py.str_of_nat n +:+ ": " +:+ l +:+ nl +:+ nl)).

(** *** Addresses and prefixes *)

(** The [try] body ends in an unconditional [return False] after the
    network-address test; the statements that follow it in the source are
    never run.  The bare [except] covers a failing constructor. *)
Definition _IsCIDRCorrect (cidr : string) : M bool :=
  match ipaddr.IPNetwork lib cidr with
  | Some ipprefix =>
      (if negb (ipaddr.network_ip ipprefix =? ipaddr._ip ipprefix)
       then _ReportError "Incorrect IP Network."
       else ret tt);;
      ret false
  | None =>
      _ReportError "Incorrect IP Network.";;
      ret false
  end.

Definition _IsIPAddressCorrect (ipaddress : string) : M bool :=
  match ipaddr.IPAddress lib ipaddress with
  | None =>
      _ReportError "Incorrect IP Address.";;
      ret false
  | Some ip =>
      if ipaddr.ip_is_private lib ip then
        _ReportError "IP Address must not be private.";;
        ret false
      else ret true
  end.

Definition _IsIPAddressOrPrefixCorrect (field : string) : M bool :=
  if Py.contains "/" field then _IsCIDRCorrect field
  else _IsIPAddressCorrect field.

(** *** Codes *)

Definition _IsAlpha2CodeCorrect (alpha2code : string) : M bool :=
  if (String.length alpha2code =? 0)%nat then ret true
  else if negb (String.length alpha2code =? 2)%nat
          || negb (Py.isalpha alpha2code)
  then
    _ReportError "Alpha 2 code must be in the ISO 3166-1 alpha 2 format.";;
    ret false
  else ret true.

Definition _IsRegionCodeCorrect (region_code : string) : M bool :=
  if (String.length region_code =? 0)%nat then ret true
  else if negb (Py.contains "-" region_code) then
    _ReportError "Region code must be in ISO 3166-2 format.";;
    ret false
  else
    let parts := Py.split "-" region_code in
    p0 <- getitem parts 0;;
    ok <- _IsAlpha2CodeCorrect p0;;
    if negb ok then ret false else ret true.

(** *** Records and lines *)

Definition _ValidateFields (fields : list string) : M unit :=
  assert_ (0 <? length fields)%nat;;
  f0 <- getitem fields 0;;
  is_correct <- _IsIPAddressOrPrefixCorrect f0;;
  is_correct <-
    (if (1 <? length fields)%nat then
       f1 <- getitem fields 1;;
       ok <- _IsAlpha2CodeCorrect f1;;
       ret (if negb ok then false else is_correct)
     else ret is_correct);;
  is_correct <-
    (if (2 <? length fields)%nat then
       f2 <- getitem fields 2;;
       ok <- _IsRegionCodeCorrect f2;;
       ret (if negb ok then false else is_correct)
     else ret is_correct);;
  if negb (length fields =? 5)%nat then
    _ReportWarning ("5 fields were expected (got "
                    +:+ Py.str_of_nat (length fields) +:+ ").")
  else ret tt.

(** The statements of [_ValidateFields] that come before the field-count
    test, as a computation of their own: the checks of fields 0 to 2. *)
Definition field_checks (fields : list string) : M bool :=
  assert_ (0 <? length fields)%nat;;
  f0 <- getitem fields 0;;
  is_correct <- _IsIPAddressOrPrefixCorrect f0;;
  is_correct <-
    (if (1 <? length fields)%nat then
       f1 <- getitem fields 1;;
       ok <- _IsAlpha2CodeCorrect f1;;
       ret (if negb ok then false else is_correct)
     else ret is_correct);;
  (if (2 <? length fields)%nat then
     f2 <- getitem fields 2;;
     ok <- _IsRegionCodeCorrect f2;;
     ret (if negb ok then false else is_correct)
   else ret is_correct).

Definition _ShouldIgnoreLine (line : string) : bool :=
  let line := Py.strip line in
  if Py.startswith "#" line then true
  else (String.length line =? 0)%nat.

Definition crlf : string := String Py.CR (String Py.LF EmptyString).

(** The local [line] is the input without its line terminators; the
    attribute [self.line] is that text cut at the first [#]. *)
Definition _ValidateLine (line : string) : M unit :=
  let line := Py.rstrip crlf line in
  modify (fun self => set_line_number (line_number self + 1)%nat self);;
  l <- getitem (Py.split "#" line) 0;;
  modify (set_line l);;
  modify (set_is_correct_line true);;
  if _ShouldIgnoreLine line then ret tt else
  rows <- lift (csv.reader line);;
  fields <- getitem rows 0;;
  _ValidateFields fields;;
  _FlushOutputStream.

(** The validator after the three assignments that open [_ValidateLine]. *)
Definition enter_line (line : string) (self : IPGeoFeedValidator)
  : IPGeoFeedValidator :=
  {| line_number := S (line_number self);
     line := hd EmptyString (Py.split "#" (Py.rstrip crlf line));
     is_correct_line := true;
     output_log := output_log self;
     output_stream := output_stream self |}.

Fixpoint Validate (feed : list string) : M unit :=
  match feed with
  | [] => ret tt
  | line :: rest => _ValidateLine line;; Validate rest
  end.

(** *** The command *)

Inductive termination : Type :=
| Exit (status : Z)
| Uncaught (e : exn).

(** The status the process ends with; an uncaught exception ends it with
    status 1. *)
Definition exit_status (t : termination) : Z :=
  match t with
  | Exit status => status
  | Uncaught _ => 1
  end.

Definition main (stdin : list string) : termination :=
  match Validate stdin __init__ with
  | Raise e => Uncaught e
  | Ok (_, feed_validator) =>
      if negb (CountErrors feed_validator "ERROR" =? 0)%nat
      then Exit 1
      else Exit 0
  end.

End Validator.

(** ** An instance of the interface: the IPv4 fragment

    Dotted quads and decimal prefix lengths, with the three private IPv4
    blocks; every other string is rejected.  It serves to run the validator
    on concrete feeds. *)

Module ipaddr_v4.

Definition is_digit (c : ascii) : bool :=
  let n := nat_of_ascii c in (48 <=? n)%nat && (n <=? 57)%nat.

Fixpoint digits_value (acc : Z) (s : string) : Z :=
  match s with
  | EmptyString => acc
  | String c s' => digits_value (10 * acc + (Z.of_nat (nat_of_ascii c) - 48)) s'
  end.

(** A decimal numeral without sign, blank or leading zero. *)
Definition parse_decimal (s : string) : option Z :=
  match s with
  | EmptyString => None
  | String c s' =>
      if negb (Py.all_chars is_digit s) then None
      else if Ascii.eqb c "0" && negb (Py.is_empty s') then None
      else Some (digits_value 0 s)
  end.

Definition _parse_octet (s : string) : option Z :=
  match parse_decimal s with
  | Some n => if n <=? 255 then Some n else None
  | None => None
  end.

Definition _ip_int_from_string (s : string) : option Z :=
  match Py.split "." s with
  | [a; b; c; d] =>
      match _parse_octet a, _parse_octet b, _parse_octet c, _parse_octet d with
      | Some a, Some b, Some c, Some d =>
          Some (Z.lor (Z.shiftl a 24)
                 (Z.lor (Z.shiftl b 16) (Z.lor (Z.shiftl c 8) d)))
      | _, _, _, _ => None
      end
  | _ => None
  end.

Definition in_block (lo hi ip : Z) : bool := (lo <=? ip) && (ip <=? hi).

(** 10.0.0.0/8, 172.16.0.0/12 and 192.168.0.0/16 *)
Definition private_range (lo hi : Z) : bool :=
  (in_block 167772160 184549375 lo && in_block 167772160 184549375 hi)
  || (in_block 2886729728 2887778303 lo && in_block 2886729728 2887778303 hi)
  || (in_block 3232235520 3232301055 lo && in_block 3232235520 3232301055 hi).

Definition IPAddress (s : string) : option Z := _ip_int_from_string s.

Definition ip_is_private (ip : Z) : bool := private_range ip ip.

Definition IPNetwork (s : string) : option ipaddr.BaseNet :=
  match Py.split "/" s with
  | [a] =>
      match _ip_int_from_string a with
      | Some ip => Some (ipaddr.mkNet 4 ip 32)
      | None => None
      end
  | [a; p] =>
      match _ip_int_from_string a, parse_decimal p with
      | Some ip, Some len =>
          if len <=? 32 then Some (ipaddr.mkNet 4 ip len) else None
      | _, _ => None
      end
  | _ => None
  end.

Definition net_is_private (n : ipaddr.BaseNet) : bool :=
  private_range (ipaddr.network_ip n)
                (Z.lor (ipaddr._ip n) (ipaddr.hostmask n)).

Definition lib : ipaddr.module :=
  {| ipaddr.BaseIP := Z;
     ipaddr.IPAddress := IPAddress;
     ipaddr.ip_is_private := ip_is_private;
     ipaddr.IPNetwork := IPNetwork;
     ipaddr.net_is_private := net_is_private |}.

End ipaddr_v4.

(** ** Running the validator *)

(** A field in double quotes. *)
Definition quoted (s : string) : string :=
  String csv.quotechar (s +:+ String csv.quotechar EmptyString).

(** The ERROR and WARNING lines and the stream contents after a feed. *)
Definition run (feed : list string)
  : result (list string * list string * option (list string)) :=
  match Validate ipaddr_v4.lib feed __init__ with
  | Ok (_, v) =>
      Ok (default [] (output_log v !! "ERROR"),
          default [] (output_log v !! "WARNING"),
          output_stream v)
  | Raise e => Raise e
  end.

(** ** Definitions used in the statements *)

(** The messages of the diagnostics. *)
Definition alpha2_message : string :=
  "Alpha 2 code must be in the ISO 3166-1 alpha 2 format.".

Definition region_message : string :=
  "Region code must be in ISO 3166-2 format.".

Definition network_message : string := "Incorrect IP Network.".

Definition address_message : string := "Incorrect IP Address.".

Definition private_message : string := "IP Address must not be private.".

Definition count_message (n : nat) : string :=
  "5 fields were expected (got " +:+ Py.str_of_nat n +:+ ").".

(** A row is open once the parser has left [START_RECORD]; a parser that
    eats a line break after fields has fields. *)
Definition open_row (r : csv.ReaderObj) : Prop :=
  match csv.state r with
  | csv.START_RECORD => False
  | csv.EAT_CRNL => csv.fields r <> []
  | _ => True
  end.

(** The validator after a run of ERROR diagnostics, oldest first. *)
Definition report_errors (messages : list string)
    (self : IPGeoFeedValidator) : IPGeoFeedValidator :=
  fold_left (fun v m => diagnostic "ERROR" m v) messages self.

(** A computation that returns, and whose only effect is to log ERRORs. *)
Definition errors_only {A : Type} (m : M A) : Prop :=
  forall self, exists a messages, m self = Ok (a, report_errors messages self).

(** A character that is neither NUL nor a line break. *)
Definition plain_char (c : ascii) : bool :=
  negb (Ascii.eqb c Py.NUL) && negb (csv.is_newline c).

(** A record followed by a comment that holds a comma. *)
Definition commented_line : string :=
  "192.0.2.1,US,US-CA,San Jose,95101 # lab, building 2".

(** A record with a carriage return inside. *)
Definition broken_line : string :=
  "192.0.2.1,US" +:+ String Py.CR ",US-CA,,".

(** The validator after a feed, when validation completes. *)
Definition validated (feed : list string) : IPGeoFeedValidator :=
  match Validate ipaddr_v4.lib feed __init__ with
  | Ok (_, v) => v
  | Raise _ => __init__
  end.

(** ** The diagnostics of a record, as a function of its fields

    What follows describes the validator without its state: the messages
    each check gives for a field, the diagnostics of a record and of a line,
    and what they do to the validator.  The properties relate the methods
    to these functions. *)

(** The line logged and written for one diagnostic. *)
Definition output_line (severity message : string) : string :=
  severity +:+ ": " +:+ message +:+ nl.

(** The validator after a run of diagnostics, oldest first. *)
Definition report (ds : list (string * string))
    (self : IPGeoFeedValidator) : IPGeoFeedValidator :=
  fold_left (fun v d => diagnostic (fst d) (snd d) v) ds self.

(** The context block of the current line. *)
Definition context_block (self : IPGeoFeedValidator) : string :=
  "line " +:+ Py.str_of_nat (line_number self) +:+ ": " +:+ line self
  +:+ nl +:+ nl.

(** The validator after the context block of an invalid line. *)
Definition flushed (self : IPGeoFeedValidator) : IPGeoFeedValidator :=
  if is_correct_line self then self else write (context_block self) self.

(** The validator with logging disabled. *)
Definition mute (self : IPGeoFeedValidator) : IPGeoFeedValidator :=
  {| line_number := line_number self; line := line self;
     is_correct_line := is_correct_line self;
     output_log := output_log self; output_stream := None |}.

Definition address_errors (lib : ipaddr.module) (field : string)
  : list string :=
  if Py.contains "/" field then
    match ipaddr.IPNetwork lib field with
    | None => [network_message]
    | Some ipprefix =>
        if ipaddr.network_ip ipprefix =? ipaddr._ip ipprefix then []
        else [network_message]
    end
  else
    match ipaddr.IPAddress lib field with
    | None => [address_message]
    | Some ip =>
        if ipaddr.ip_is_private lib ip then [private_message] else []
    end.

Definition alpha2_errors (alpha2code : string) : list string :=
  if Py.is_empty alpha2code
     || ((String.length alpha2code =? 2)%nat
         && Py.all_chars Py.isalpha_char alpha2code)
  then [] else [alpha2_message].

Definition region_errors (region_code : string) : list string :=
  if Py.is_empty region_code then []
  else if Py.contains "-" region_code
       then alpha2_errors (hd EmptyString (Py.split "-" region_code))
  else [region_message].

(** The ERRORs of fields 0 to 2, then the field-count WARNING. *)
Definition record_diagnostics (lib : ipaddr.module) (fields : list string)
  : list (string * string) :=
  map (pair "ERROR")
      (match fields !! 0%nat with
       | Some f0 => address_errors lib f0
       | None => []
       end
       ++ match fields !! 1%nat with
          | Some f1 => alpha2_errors f1
          | None => []
          end
       ++ match fields !! 2%nat with
          | Some f2 => region_errors f2
          | None => []
          end)
  ++ (if (length fields =? 5)%nat then []
      else [("WARNING", count_message (length fields))]).

(** The diagnostics of a line: none for a skipped line, those of its record
    otherwise, or the exception of the reader. *)
Definition line_diagnostics (lib : ipaddr.module) (input : string)
  : result (list (string * string)) :=
  let l := Py.rstrip crlf input in
  if _ShouldIgnoreLine l then Ok []
  else match csv.reader l with
       | Raise e => Raise e
       | Ok rows => Ok (record_diagnostics lib (hd [] rows))
       end.

(** The diagnostics the validator can log. *)
Definition known_diagnostic (d : string * string) : Prop :=
  (fst d = "ERROR"
   /\ In (snd d) [network_message; address_message; private_message;
                  alpha2_message; region_message])
  \/ (fst d = "WARNING"
      /\ exists n : nat, n <> 5%nat /\ snd d = count_message n).

(** A character of an unquoted field: no NUL, no line break, no quote. *)
Definition unquoted_char (c : ascii) : bool :=
  plain_char c && negb (Ascii.eqb c csv.quotechar).

(** [p] put in front of the first string of a list. *)
Definition prepend (p : string) (parts : list string) : list string :=
  match parts with
  | x :: xs => (p +:+ x) :: xs
  | [] => [p]
  end.

(** A computation that returns on every validator and logs the ERRORs
    [messages], in that order, whatever the validator. *)
Definition logs {A : Type} (m : M A) (messages : list string) : Prop :=
  forall self, exists a, m self = Ok (a, report_errors messages self).

(** The first character of a string, if it has one. *)
Definition first_char (s : string) : option ascii :=
  match s with
  | String c _ => Some c
  | EmptyString => None
  end.

(** The messages of the five ERRORs. *)
Definition error_messages : list string :=
  [network_message; address_message; private_message; alpha2_message;
   region_message].

(** The parser between two characters of an unquoted record. *)
Definition between_fields (r : csv.ReaderObj) : Prop :=
  (csv.state r = csv.START_FIELD /\ csv.field r = EmptyString)
  \/ csv.state r = csv.IN_FIELD.

(** The diagnostics of a feed, line after line, or the exception of the
    first line on which the reader raises. *)
Fixpoint feed_diagnostics (lib : ipaddr.module) (feed : list string)
  : result (list (string * string)) :=
  match feed with
  | [] => Ok []
  | input :: rest =>
      match line_diagnostics lib input with
      | Raise e => Raise e
      | Ok ds =>
          match feed_diagnostics lib rest with
          | Raise e => Raise e
          | Ok ds' => Ok (ds ++ ds')
          end
      end
  end.

(** * Properties *)

(** ** The model at work *)

Example reader_plain :
  csv.reader "192.0.2.1,US,US-CA,," = Ok [["192.0.2.1"; "US"; "US-CA"; ""; ""]].
Proof. vm_compute. reflexivity. Qed.

Example reader_quoted :
  csv.reader ("a," +:+ quoted ("b,c" +:+ quoted "") +:+ "d,e")
  = Ok [["a"; "b,c" +:+ String csv.quotechar "d"; "e"]].
Proof. vm_compute. reflexivity. Qed.

Example reader_open_quote :
  csv.reader ("a," +:+ String csv.quotechar "bc") = Ok [["a"; "bc"]].
Proof. vm_compute. reflexivity. Qed.

Example reader_empty : csv.reader "" = Ok [[]].
Proof. vm_compute. reflexivity. Qed.

Example run_clean : run ["192.0.2.1,US,US-CA,,"] = Ok ([], [], Some []).
Proof. vm_compute. reflexivity. Qed.

Example run_bad_address :
  run ["256.256.256.256,,,,"]
  = Ok (["ERROR: Incorrect IP Address." +:+ nl], [],
        Some ["ERROR: Incorrect IP Address." +:+ nl;
              "line 1: 256.256.256.256,,,," +:+ nl +:+ nl]).
Proof. vm_compute. reflexivity. Qed.

Example run_host_bits :
  run ["10.0.0.1/24,,,,"]
  = Ok (["ERROR: Incorrect IP Network." +:+ nl], [],
        Some ["ERROR: Incorrect IP Network." +:+ nl;
              "line 1: 10.0.0.1/24,,,," +:+ nl +:+ nl]).
Proof. vm_compute. reflexivity. Qed.

Example run_private_prefix : run ["10.0.0.0/24,,,,"] = Ok ([], [], Some []).
Proof. vm_compute. reflexivity. Qed.

Example run_alpha3 :
  run ["192.0.2.1,USA,,,"]
  = Ok (["ERROR: Alpha 2 code must be in the ISO 3166-1 alpha 2 format." +:+ nl],
        [],
        Some ["ERROR: Alpha 2 code must be in the ISO 3166-1 alpha 2 format."
                +:+ nl;
              "line 1: 192.0.2.1,USA,,," +:+ nl +:+ nl]).
Proof. vm_compute. reflexivity. Qed.

Example run_region_without_dash :
  run ["192.0.2.1,US,CA,,"]
  = Ok (["ERROR: Region code must be in ISO 3166-2 format." +:+ nl], [],
        Some ["ERROR: Region code must be in ISO 3166-2 format." +:+ nl;
              "line 1: 192.0.2.1,US,CA,," +:+ nl +:+ nl]).
Proof. vm_compute. reflexivity. Qed.

Example run_short_record :
  run ["# header" +:+ nl; nl; "192.0.2.1,US" +:+ nl]
  = Ok ([], ["WARNING: 5 fields were expected (got 2)." +:+ nl],
        Some ["WARNING: 5 fields were expected (got 2)." +:+ nl;
              "line 3: 192.0.2.1,US" +:+ nl +:+ nl]).
Proof. vm_compute. reflexivity. Qed.

(** ** Strings *)

Lemma is_empty_true (s : string) : Py.is_empty s = true <-> s = EmptyString.
Proof. destruct s; simpl; split; congruence. Qed.

Lemma length_zero_is_empty (s : string) :
  (String.length s =? 0)%nat = Py.is_empty s.
Proof. destruct s; reflexivity. Qed.

Lemma append_assoc (s1 s2 s3 : string) :
  (s1 +:+ s2) +:+ s3 = s1 +:+ (s2 +:+ s3).
Proof.
  induction s1 as [|c s1 IH]; [reflexivity|].
  change (String c ((s1 +:+ s2) +:+ s3) = String c (s1 +:+ (s2 +:+ s3))).
  f_equal. exact IH.
Qed.

Lemma rstrip_with_all (p : ascii -> bool) (s : string) :
  Py.all_chars p s = true -> Py.rstrip_with p s = EmptyString.
Proof.
  induction s as [|c s IH]; simpl; [reflexivity|].
  intros [Hc Hs]%andb_true_iff. rewrite (IH Hs), Hc. reflexivity.
Qed.

(** Stripping a smaller class of trailing characters first changes nothing. *)
Lemma rstrip_with_absorb (p1 p2 : ascii -> bool) (s : string) :
  (forall c, p1 c = true -> p2 c = true) ->
  Py.rstrip_with p2 (Py.rstrip_with p1 s) = Py.rstrip_with p2 s.
Proof.
  intros Hsub. induction s as [|c s IH]; simpl; [reflexivity|].
  destruct (Py.is_empty (Py.rstrip_with p1 s)) eqn:E1; simpl.
  - apply is_empty_true in E1. rewrite E1 in IH. simpl in IH.
    destruct (p1 c) eqn:Ec; simpl.
    + rewrite <- IH. simpl. rewrite (Hsub c Ec). reflexivity.
    + rewrite E1, <- IH. reflexivity.
  - rewrite IH. reflexivity.
Qed.

Lemma crlf_isspace (c : ascii) :
  Py.contains c crlf = true -> Py.isspace c = true.
Proof.
  unfold crlf. cbn [Py.contains]. rewrite orb_false_r.
  intros [H|H]%orb_true_iff; apply Ascii.eqb_eq in H; subst c; reflexivity.
Qed.

Lemma strip_rstrip_crlf (line : string) :
  Py.strip (Py.rstrip crlf line) = Py.strip line.
Proof.
  unfold Py.strip, Py.rstrip. f_equal.
  apply rstrip_with_absorb. exact crlf_isspace.
Qed.

Lemma split_cons (sep : ascii) (s : string) :
  exists p ps, Py.split sep s = p :: ps.
Proof.
  induction s as [|c s (p & ps & IH)]; simpl; [eauto|].
  destruct (Ascii.eqb c sep); [eauto|]. rewrite IH. eauto.
Qed.

(** The first part of a split is the text before the first separator. *)
Lemma split_first (sep : ascii) (pre post : string) :
  Py.contains sep pre = false ->
  Py.split sep (pre +:+ String sep post) = pre :: Py.split sep post.
Proof.
  induction pre as [|c pre IH]; simpl.
  - intros _. rewrite Ascii.eqb_refl. reflexivity.
  - intros [Hc Hpre]%orb_false_iff. rewrite Hc, (IH Hpre). reflexivity.
Qed.

Lemma split_without (sep : ascii) (s : string) :
  Py.contains sep s = false -> Py.split sep s = [s].
Proof.
  induction s as [|c s IH]; simpl; [reflexivity|].
  intros [Hc Hs]%orb_false_iff. rewrite Hc, (IH Hs). reflexivity.
Qed.

(** A string that holds the separator is a text without it, the separator,
    and a rest. *)
Lemma contains_decompose (sep : ascii) (s : string) :
  Py.contains sep s = true ->
  exists pre post,
    s = pre +:+ String sep post /\ Py.contains sep pre = false.
Proof.
  induction s as [|c s IH]; simpl; [discriminate|].
  destruct (Ascii.eqb c sep) eqn:Ec; simpl.
  - intros _. apply Ascii.eqb_eq in Ec. subst c.
    exists EmptyString, s. split; reflexivity.
  - intros (pre & post & -> & Hpre)%IH.
    exists (String c pre), post. simpl. rewrite Ec, Hpre. split; reflexivity.
Qed.

(** ** Reporting *)

Ltac unfold_monad :=
  unfold bind, ret, raise, lift, modify, get, assert_ in *.

Lemma Ok_state_eq {A : Type} (a b : A) (v w : IPGeoFeedValidator) :
  Ok (a, v) = Ok (b, w) -> v = w.
Proof. congruence. Qed.

Lemma _ReportWithSeverity_spec (severity message : string)
    (self : IPGeoFeedValidator) :
  _ReportWithSeverity severity message self
  = Ok (tt, diagnostic severity message self).
Proof.
  unfold _ReportWithSeverity, diagnostic. unfold_monad.
  unfold set_is_correct_line, set_output_log, write. simpl.
  destruct (output_log self !! severity) as [old|] eqn:E; simpl.
  - rewrite (lookup_total_correct _ _ _ E). reflexivity.
  - rewrite lookup_total_insert_eq, insert_insert_eq. reflexivity.
Qed.

Lemma _ReportError_spec (message : string) (self : IPGeoFeedValidator) :
  _ReportError message self = Ok (tt, diagnostic "ERROR" message self).
Proof. apply _ReportWithSeverity_spec. Qed.

Lemma _ReportWarning_spec (message : string) (self : IPGeoFeedValidator) :
  _ReportWarning message self = Ok (tt, diagnostic "WARNING" message self).
Proof. apply _ReportWithSeverity_spec. Qed.

(** A diagnostic of one severity leaves the log of every other severity
    as it was. *)
Lemma diagnostic_log_other (severity severity' message : string)
    (self : IPGeoFeedValidator) :
  severity <> severity' ->
  output_log (diagnostic severity message self) !! severity'
  = output_log self !! severity'.
Proof. intros Hne. simpl. apply lookup_insert_ne. exact Hne. Qed.

Lemma diagnostic_log_same (severity message : string)
    (self : IPGeoFeedValidator) :
  output_log (diagnostic severity message self) !! severity
  = Some (default [] (output_log self !! severity)
          ++ [severity +:+ ": " +:+ message +:+ nl]).
Proof. simpl. apply lookup_insert_eq. Qed.

Lemma diagnostic_neq_self (severity message : string)
    (self : IPGeoFeedValidator) :
  diagnostic severity message self <> self.
Proof.
  intros H. apply (f_equal (fun v => output_log v !! severity)) in H.
  rewrite diagnostic_log_same in H.
  destruct (output_log self !! severity) as [old|]; [|discriminate H].
  injection H as H. apply (f_equal length) in H.
  rewrite length_app in H. simpl in H. lia.
Qed.

(** Two diagnostics that leave the same validator logged the same line. *)
Lemma diagnostic_same_line (severity m1 m2 : string)
    (self : IPGeoFeedValidator) :
  diagnostic severity m1 self = diagnostic severity m2 self ->
  severity +:+ ": " +:+ m1 +:+ nl = severity +:+ ": " +:+ m2 +:+ nl.
Proof.
  intros H. apply (f_equal (fun v => output_log v !! severity)) in H.
  rewrite !diagnostic_log_same in H. injection H as H.
  apply app_inv_head in H. injection H as H. exact H.
Qed.

Lemma CountErrors_diagnostic (severity message : string)
    (self : IPGeoFeedValidator) :
  CountErrors (diagnostic severity message self) severity
  = S (CountErrors self severity).
Proof.
  unfold CountErrors. rewrite diagnostic_log_same. simpl.
  rewrite length_app. simpl. lia.
Qed.

(** ** Codes *)

Lemma _IsAlpha2CodeCorrect_eq (alpha2code : string)
    (self : IPGeoFeedValidator) :
  _IsAlpha2CodeCorrect alpha2code self
  = if Py.is_empty alpha2code
       || ((String.length alpha2code =? 2)%nat
           && Py.all_chars Py.isalpha_char alpha2code)
    then Ok (true, self)
    else Ok (false, diagnostic "ERROR" alpha2_message self).
Proof.
  unfold _IsAlpha2CodeCorrect. rewrite length_zero_is_empty.
  destruct alpha2code as [|c rest]; [reflexivity|].
  cbn [Py.is_empty orb]. unfold Py.isalpha.
  destruct (String.length (String c rest) =? 2)%nat; cbn [negb orb andb].
  - destruct (Py.all_chars Py.isalpha_char (String c rest)); cbn [negb].
    + reflexivity.
    + unfold bind. rewrite _ReportError_spec. reflexivity.
  - unfold bind. rewrite _ReportError_spec. reflexivity.
Qed.

(** C8: the alpha-2 check accepts the empty string, and a non-empty string
    exactly when it has two characters, all of them alphabetic; an accepted
    string logs nothing, and a rejected one logs the one ERROR
    [Alpha 2 code must be in the ISO 3166-1 alpha 2 format.] and nothing
    else.  Alphabetic is what [str.isalpha] says: among the code points the
    model covers, the ASCII letters of either case and the letters above
    them (170, 181, 186, and 192 to 255 but for the signs 215 and 247). *)
Theorem C8_alpha2_code (alpha2code : string) (self : IPGeoFeedValidator) :
  let accepted :=
    alpha2code = EmptyString
    \/ (String.length alpha2code = 2%nat
        /\ Py.all_chars Py.isalpha_char alpha2code = true) in
  (accepted <-> _IsAlpha2CodeCorrect alpha2code self = Ok (true, self))
  /\ (~ accepted <->
      _IsAlpha2CodeCorrect alpha2code self
      = Ok (false, diagnostic "ERROR" alpha2_message self))
  /\ (forall c, Py.isalpha_char c = true <->
        (65 <= nat_of_ascii c <= 90 \/ 97 <= nat_of_ascii c <= 122
         \/ nat_of_ascii c = 170 \/ nat_of_ascii c = 181
         \/ nat_of_ascii c = 186
         \/ (192 <= nat_of_ascii c /\ nat_of_ascii c <> 215
             /\ nat_of_ascii c <> 247))%nat).
Proof.
  cbv zeta. rewrite _IsAlpha2CodeCorrect_eq.
  assert (Hdec : Py.is_empty alpha2code
            || ((String.length alpha2code =? 2)%nat
                && Py.all_chars Py.isalpha_char alpha2code) = true
          <-> alpha2code = EmptyString
              \/ (String.length alpha2code = 2%nat
                  /\ Py.all_chars Py.isalpha_char alpha2code = true)).
  { rewrite orb_true_iff, andb_true_iff, is_empty_true, Nat.eqb_eq.
    reflexivity. }
  assert (Hclass : forall c, Py.isalpha_char c = true <->
            (65 <= nat_of_ascii c <= 90 \/ 97 <= nat_of_ascii c <= 122
             \/ nat_of_ascii c = 170 \/ nat_of_ascii c = 181
             \/ nat_of_ascii c = 186
             \/ (192 <= nat_of_ascii c /\ nat_of_ascii c <> 215
                 /\ nat_of_ascii c <> 247))%nat).
  { intros c. unfold Py.isalpha_char. cbv zeta.
    rewrite !orb_true_iff, !andb_true_iff, !negb_true_iff, !Nat.leb_le,
      !Nat.eqb_eq, !Nat.eqb_neq.
    tauto. }
  destruct (Py.is_empty alpha2code
            || ((String.length alpha2code =? 2)%nat
                && Py.all_chars Py.isalpha_char alpha2code)) eqn:E.
  - split; [|split; [|exact Hclass]].
    + split; [reflexivity|]. intros _. apply Hdec. reflexivity.
    + split; [|discriminate]. intros Hn. exfalso. apply Hn, Hdec. reflexivity.
  - split; [|split; [|exact Hclass]].
    + split; [|discriminate]. intros Ha. apply Hdec in Ha. discriminate.
    + split; [reflexivity|]. intros _ Ha. apply Hdec in Ha. discriminate.
Qed.

(** Two accented letters are a code; two multiplication signs are not. *)
Example alpha2_accented :
  _IsAlpha2CodeCorrect (String "233" (String "233" EmptyString)) __init__
  = Ok (true, __init__)
  /\ _IsAlpha2CodeCorrect (String "215" (String "215" EmptyString)) __init__
     = Ok (false, diagnostic "ERROR" alpha2_message __init__).
Proof. split; vm_compute; reflexivity. Qed.

Lemma _IsRegionCodeCorrect_dash (pre post : string)
    (self : IPGeoFeedValidator) :
  Py.contains "-" pre = false ->
  _IsRegionCodeCorrect (pre +:+ String "-" post) self
  = _IsAlpha2CodeCorrect pre self.
Proof.
  intros Hpre. unfold _IsRegionCodeCorrect.
  assert (Hin : Py.contains "-" (pre +:+ String "-" post) = true).
  { clear Hpre. induction pre as [|c pre IH]; simpl.
    - reflexivity.
    - rewrite IH. apply orb_true_r. }
  rewrite Hin, (split_first _ _ _ Hpre). cbn [negb].
  destruct (String.length (pre +:+ String "-" post) =? 0)%nat eqn:E.
  { apply Nat.eqb_eq in E. destruct pre; simpl in E; discriminate. }
  unfold getitem, bind, ret. simpl.
  destruct (_IsAlpha2CodeCorrect pre self) as [[[|] s']|e]; reflexivity.
Qed.

(** C7: on the empty string the region-code check logs nothing; on a
    non-empty string without [-] it logs the one ERROR
    [Region code must be in ISO 3166-2 format.]; on a string that holds [-]
    it does what the alpha-2 check does on the text before the first [-],
    whatever follows that [-]. *)
Theorem C7_region_code (region_code : string) (self : IPGeoFeedValidator) :
  (region_code = EmptyString ->
   _IsRegionCodeCorrect region_code self = Ok (true, self))
  /\ (region_code <> EmptyString -> Py.contains "-" region_code = false ->
      _IsRegionCodeCorrect region_code self
      = Ok (false, diagnostic "ERROR" region_message self))
  /\ (Py.contains "-" region_code = true ->
      exists pre post,
        region_code = pre +:+ String "-" post
        /\ Py.contains "-" pre = false
        /\ _IsRegionCodeCorrect region_code self
           = _IsAlpha2CodeCorrect pre self)
  /\ (forall pre post post',
        Py.contains "-" pre = false ->
        _IsRegionCodeCorrect (pre +:+ String "-" post) self
        = _IsRegionCodeCorrect (pre +:+ String "-" post') self).
Proof.
  split; [|split; [|split]].
  - intros ->. reflexivity.
  - intros Hne Hdash. unfold _IsRegionCodeCorrect.
    rewrite length_zero_is_empty, Hdash.
    destruct region_code; [congruence|]. cbn [Py.is_empty negb].
    unfold bind. rewrite _ReportError_spec. reflexivity.
  - intros (pre & post & -> & Hpre)%contains_decompose.
    exists pre, post. split; [reflexivity|]. split; [exact Hpre|].
    apply _IsRegionCodeCorrect_dash, Hpre.
  - intros pre post post' Hpre.
    rewrite !_IsRegionCodeCorrect_dash by exact Hpre. reflexivity.
Qed.

(** C10: a region code that begins with [-] is accepted and logs nothing:
    the text before the first [-] is empty, and the alpha-2 check accepts
    the empty string. *)
Theorem C10_region_code_leading_dash (rest : string)
    (self : IPGeoFeedValidator) :
  Py.split "-" (String "-" rest) !! 0%nat = Some EmptyString
  /\ _IsAlpha2CodeCorrect EmptyString self = Ok (true, self)
  /\ _IsRegionCodeCorrect (String "-" rest) self = Ok (true, self).
Proof.
  split; [reflexivity|]. split; [reflexivity|].
  apply (_IsRegionCodeCorrect_dash EmptyString rest self). reflexivity.
Qed.

(** ** Addresses and prefixes *)

(** The comparison [_IsCIDRCorrect] makes is the test for host bits: the
    address of a parsed network equals its network address exactly when no
    bit of it falls under the host mask. *)
Lemma network_ip_canonical (n : ipaddr.BaseNet) :
  0 <= ipaddr._ip n <= ipaddr._ALL_ONES n ->
  ipaddr.network_ip n = ipaddr._ip n
  <-> Z.land (ipaddr._ip n) (ipaddr.hostmask n) = 0.
Proof.
  unfold ipaddr.network_ip, ipaddr.hostmask. intros Hrange.
  assert (Hones : Z.land (ipaddr._ip n) (ipaddr._ALL_ONES n) = ipaddr._ip n).
  { unfold ipaddr._ALL_ONES in *.
    assert (Hw : 0 <= ipaddr._max_prefixlen n).
    { unfold ipaddr._max_prefixlen. destruct (ipaddr._version n =? 4); lia. }
    replace (2 ^ ipaddr._max_prefixlen n - 1)
      with (Z.ones (ipaddr._max_prefixlen n))
      by (rewrite Z.ones_equiv; lia).
    rewrite Z.land_ones by exact Hw. apply Z.mod_small. lia. }
  generalize dependent (ipaddr._ALL_ONES n). intros ones _ Hones.
  generalize (ipaddr.netmask n). intros mask.
  split; intros H; apply Z.bits_inj'; intros i Hi;
    apply (f_equal (fun z => Z.testbit z i)) in H;
    apply (f_equal (fun z => Z.testbit z i)) in Hones;
    cbv beta in H, Hones;
    rewrite ?Z.land_spec, ?Z.lxor_spec, ?Z.bits_0 in *;
    destruct (Z.testbit (ipaddr._ip n) i), (Z.testbit mask i),
      (Z.testbit ones i); simpl in *; congruence.
Qed.

Section Addresses.

Variable lib : ipaddr.module.

Lemma _IsCIDRCorrect_eq (cidr : string) (self : IPGeoFeedValidator) :
  _IsCIDRCorrect lib cidr self
  = match ipaddr.IPNetwork lib cidr with
    | None => Ok (false, diagnostic "ERROR" network_message self)
    | Some ipprefix =>
        if ipaddr.network_ip ipprefix =? ipaddr._ip ipprefix
        then Ok (false, self)
        else Ok (false, diagnostic "ERROR" network_message self)
    end.
Proof.
  unfold _IsCIDRCorrect.
  destruct (ipaddr.IPNetwork lib cidr) as [ipprefix|].
  - destruct (ipaddr.network_ip ipprefix =? ipaddr._ip ipprefix);
      cbn [negb]; unfold bind; [reflexivity|].
    rewrite _ReportError_spec. reflexivity.
  - unfold bind. rewrite _ReportError_spec. reflexivity.
Qed.

Lemma _IsIPAddressCorrect_eq (ipaddress : string)
    (self : IPGeoFeedValidator) :
  _IsIPAddressCorrect lib ipaddress self
  = match ipaddr.IPAddress lib ipaddress with
    | None => Ok (false, diagnostic "ERROR" address_message self)
    | Some ip =>
        if ipaddr.ip_is_private lib ip
        then Ok (false, diagnostic "ERROR" private_message self)
        else Ok (true, self)
    end.
Proof.
  unfold _IsIPAddressCorrect.
  destruct (ipaddr.IPAddress lib ipaddress) as [ip|].
  - destruct (ipaddr.ip_is_private lib ip); [|reflexivity].
    unfold bind. rewrite _ReportError_spec. reflexivity.
  - unfold bind. rewrite _ReportError_spec. reflexivity.
Qed.

(** C1: for a first field that holds [/], the check logs the one ERROR
    [Incorrect IP Network.] when the field does not parse as a network or
    when the parsed address differs from the network address of its prefix,
    that is, has a bit under the host mask, and logs nothing otherwise; it
    logs nothing for a network that parses and is canonical even when that
    network is private, so the ERROR [IP Address must not be private.]
    never comes from such a field. *)
Theorem C1_cidr_diagnostics (field : string) (self : IPGeoFeedValidator) :
  Py.contains "/" field = true ->
  _IsIPAddressOrPrefixCorrect lib field self
  = match ipaddr.IPNetwork lib field with
    | None => Ok (false, diagnostic "ERROR" network_message self)
    | Some ipprefix =>
        if ipaddr.network_ip ipprefix =? ipaddr._ip ipprefix
        then Ok (false, self)
        else Ok (false, diagnostic "ERROR" network_message self)
    end
  /\ (forall ipprefix,
        ipaddr.IPNetwork lib field = Some ipprefix ->
        ipaddr.network_ip ipprefix = ipaddr._ip ipprefix ->
        ipaddr.net_is_private lib ipprefix = true ->
        _IsIPAddressOrPrefixCorrect lib field self = Ok (false, self))
  /\ (forall ipprefix,
        ipaddr.IPNetwork lib field = Some ipprefix ->
        0 <= ipaddr._ip ipprefix <= ipaddr._ALL_ONES ipprefix ->
        _IsIPAddressOrPrefixCorrect lib field self = Ok (false, self)
        <-> Z.land (ipaddr._ip ipprefix) (ipaddr.hostmask ipprefix) = 0)
  /\ (forall b self',
        _IsIPAddressOrPrefixCorrect lib field self = Ok (b, self') ->
        self' <> diagnostic "ERROR" private_message self).
Proof.
  intros Hslash.
  assert (Heq : _IsIPAddressOrPrefixCorrect lib field self
                = _IsCIDRCorrect lib field self).
  { unfold _IsIPAddressOrPrefixCorrect. rewrite Hslash. reflexivity. }
  rewrite Heq, _IsCIDRCorrect_eq. split; [reflexivity|]. split; [|split].
  - intros ipprefix -> Hcanon _. apply Z.eqb_eq in Hcanon.
    rewrite Hcanon. reflexivity.
  - intros ipprefix -> Hrange.
    rewrite <- (network_ip_canonical ipprefix Hrange).
    destruct (ipaddr.network_ip ipprefix =? ipaddr._ip ipprefix) eqn:E.
    + apply Z.eqb_eq in E. split; [intros _; exact E|reflexivity].
    + apply Z.eqb_neq in E. split; [|contradiction].
      intros Hrun. apply Ok_state_eq in Hrun.
      destruct (diagnostic_neq_self _ _ _ Hrun).
  - intros b self' Hrun ->.
    destruct (ipaddr.IPNetwork lib field) as [ipprefix|];
      [destruct (ipaddr.network_ip ipprefix =? ipaddr._ip ipprefix)|];
      apply Ok_state_eq in Hrun.
    + exact (diagnostic_neq_self _ _ _ (eq_sym Hrun)).
    + apply diagnostic_same_line in Hrun. discriminate Hrun.
    + apply diagnostic_same_line in Hrun. discriminate Hrun.
Qed.

(** C4: a first field without [/] is checked as a bare address: if it does
    not parse, the one ERROR [Incorrect IP Address.] is logged; if it parses
    to a private address, the one ERROR [IP Address must not be private.];
    otherwise nothing is logged. *)
Theorem C4_bare_address (field : string) (self : IPGeoFeedValidator) :
  Py.contains "/" field = false ->
  _IsIPAddressOrPrefixCorrect lib field self
  = match ipaddr.IPAddress lib field with
    | None => Ok (false, diagnostic "ERROR" address_message self)
    | Some ip =>
        if ipaddr.ip_is_private lib ip
        then Ok (false, diagnostic "ERROR" private_message self)
        else Ok (true, self)
    end.
Proof.
  intros Hslash. unfold _IsIPAddressOrPrefixCorrect. rewrite Hslash.
  apply _IsIPAddressCorrect_eq.
Qed.

End Addresses.

(** ** The rows of [csv.reader] *)

Lemma parse_add_char_keeps (r r' : csv.ReaderObj) (c : ascii) :
  csv.parse_add_char r c = Ok r' ->
  csv.state r' = csv.state r /\ csv.fields r' = csv.fields r.
Proof.
  unfold csv.parse_add_char.
  destruct (csv.field_limit <=? _); [discriminate|].
  intros [= <-]. split; reflexivity.
Qed.

Lemma saved_fields_nonempty (r : csv.ReaderObj) :
  csv.fields (csv.parse_save_field r) <> [].
Proof. simpl. destruct (csv.fields r); discriminate. Qed.

Ltac csv_cases :=
  repeat match goal with
  | H : Ok _ = Ok _ |- _ => injection H as H; subst
  | H : Raise _ = Ok _ |- _ => discriminate H
  | H : context [if ?b then _ else _] |- _ => destruct b eqn:?
  | H : context [match csv.parse_add_char ?r ?c with _ => _ end] |- _ =>
      let E := fresh "Eadd" in
      destruct (csv.parse_add_char r c) eqn:E;
      [apply parse_add_char_keeps in E; destruct E|]
  | H : csv.parse_add_char _ _ = Ok _ |- _ =>
      apply parse_add_char_keeps in H; destruct H
  end.

Lemma open_row_step (r r' : csv.ReaderObj) (c : ascii) :
  open_row r -> csv.parse_process_char r (Some c) = Ok r' -> open_row r'.
Proof.
  unfold open_row, csv.parse_process_char. intros Hopen Hstep.
  destruct (csv.state r) eqn:Est; try contradiction; csv_cases;
    simpl in *;
    repeat match goal with
    | H : csv.state ?x = _ |- context [csv.state ?x] => rewrite H
    | H : csv.fields ?x = _ |- context [csv.fields ?x] => rewrite H
    end;
    simpl; rewrite ?Est; auto;
    try (destruct (csv.fields r); discriminate).
Qed.

Lemma open_row_chars (line : string) (r r' : csv.ReaderObj) :
  open_row r -> csv.process_chars r line = Ok r' -> open_row r'.
Proof.
  revert r. induction line as [|c line IH]; simpl; intros r Hopen Hrun.
  - injection Hrun as <-. exact Hopen.
  - destruct (csv.parse_process_char r (Some c)) as [r1|e] eqn:E1;
      [|discriminate].
    exact (IH r1 (open_row_step _ _ _ Hopen E1) Hrun).
Qed.

(** At the end of the line an open row is either complete, with a field in
    it, or still inside a quoted field. *)
Lemma open_row_eol (r r' : csv.ReaderObj) :
  open_row r -> csv.parse_process_char r None = Ok r' ->
  (csv.state r' = csv.START_RECORD /\ csv.fields r' <> [])
  \/ csv.state r' = csv.IN_QUOTED_FIELD.
Proof.
  unfold open_row, csv.parse_process_char. intros Hopen Hstep.
  destruct (csv.state r) eqn:Est; try contradiction;
    injection Hstep as <-; simpl;
    try (left; split; [reflexivity|];
         first [exact Hopen | destruct (csv.fields r); discriminate]).
  right. exact Est.
Qed.

(** A parser that eats a line break accepts line breaks only. *)
Lemma eat_crnl_chars (line : string) (r r' : csv.ReaderObj) :
  csv.state r = csv.EAT_CRNL -> csv.process_chars r line = Ok r' ->
  Py.all_chars csv.is_newline line = true /\ r' = r.
Proof.
  intros Hst. induction line as [|c line IH]; simpl; intros Hrun.
  - injection Hrun as <-. split; reflexivity.
  - unfold csv.parse_process_char in Hrun. rewrite Hst in Hrun.
    destruct (csv.is_newline c); [|discriminate].
    destruct (IH Hrun) as [Hall ->]. split; [exact Hall|reflexivity].
Qed.

(** Without an error the reader yields one row, and the row is empty only
    for a line made of line breaks. *)
Lemma reader_row (line : string) (rows : list (list string)) :
  csv.reader line = Ok rows ->
  exists row, rows = [row]
    /\ (row = [] -> Py.all_chars csv.is_newline line = true).
Proof.
  unfold csv.reader, csv.process_line.
  destruct (csv.process_chars csv.parse_reset line) as [r1|e] eqn:Echars;
    [|discriminate].
  destruct (csv.parse_process_char r1 None) as [r2|e] eqn:Eeol;
    [|discriminate].
  destruct line as [|c line].
  { simpl in Echars. injection Echars as <-. simpl in Eeol.
    injection Eeol as <-. simpl. intros [= <-]. eauto. }
  simpl in Echars.
  destruct (csv.parse_process_char csv.parse_reset (Some c)) as [r0|e] eqn:E0;
    [|discriminate].
  destruct (csv.is_newline c) eqn:Enl.
  - (* the line starts with a line break *)
    unfold csv.parse_process_char in E0. simpl in E0. rewrite Enl in E0.
    injection E0 as <-.
    destruct (eat_crnl_chars line
                (csv.set_state csv.EAT_CRNL csv.parse_reset) r1
                eq_refl Echars) as [Hall ->].
    simpl in Eeol. injection Eeol as <-. simpl.
    intros [= <-]. eexists. split; [reflexivity|].
    intros _. simpl. rewrite Enl, Hall. reflexivity.
  - assert (Hopen : open_row r0).
    { unfold csv.parse_process_char in E0. simpl in E0. rewrite Enl in E0.
      unfold open_row. csv_cases; simpl in *;
        repeat match goal with
        | H : csv.state ?x = _ |- context [csv.state ?x] => rewrite H
        end; simpl; auto. }
    pose proof (open_row_chars _ _ _ Hopen Echars) as Hopen1.
    destruct (open_row_eol _ _ Hopen1 Eeol) as [[Hst Hfields]|Hst];
      rewrite Hst; simpl.
    + intros [= <-]. eexists. split; [reflexivity|]. contradiction.
    + rewrite orb_true_r. intros [= <-]. eexists. split; [reflexivity|].
      intros Hnil. exfalso. exact (saved_fields_nonempty _ Hnil).
Qed.

Lemma is_newline_isspace (c : ascii) :
  csv.is_newline c = true -> Py.isspace c = true.
Proof.
  unfold csv.is_newline.
  intros [H|H]%orb_true_iff; apply Ascii.eqb_eq in H; subst c; reflexivity.
Qed.

Lemma all_chars_impl (p1 p2 : ascii -> bool) (s : string) :
  (forall c, p1 c = true -> p2 c = true) ->
  Py.all_chars p1 s = true -> Py.all_chars p2 s = true.
Proof.
  intros Hsub. induction s as [|c s IH]; simpl; [reflexivity|].
  intros [Hc Hs]%andb_true_iff. rewrite (Hsub c Hc), (IH Hs). reflexivity.
Qed.

Lemma blank_line_ignored (line : string) :
  Py.all_chars csv.is_newline line = true -> _ShouldIgnoreLine line = true.
Proof.
  intros Hall. unfold _ShouldIgnoreLine, Py.strip.
  rewrite (rstrip_with_all Py.isspace line); [reflexivity|].
  exact (all_chars_impl _ _ _ is_newline_isspace Hall).
Qed.

(** The fields of a line that is not skipped, when the reader returns. *)
Lemma reader_fields (line : string) (rows : list (list string)) :
  _ShouldIgnoreLine line = false -> csv.reader line = Ok rows ->
  exists f fs, rows = [f :: fs].
Proof.
  intros Hkeep (row & -> & Hrow)%reader_row.
  destruct row as [|f fs]; [|eauto].
  rewrite (blank_line_ignored line (Hrow eq_refl)) in Hkeep. discriminate.
Qed.

(** ** Records *)

Lemma report_errors_app (ms ms' : list string) (self : IPGeoFeedValidator) :
  report_errors (ms ++ ms') self = report_errors ms' (report_errors ms self).
Proof. apply fold_left_app. Qed.

Lemma report_errors_other (severity : string) (ms : list string)
    (self : IPGeoFeedValidator) :
  severity <> "ERROR" ->
  output_log (report_errors ms self) !! severity = output_log self !! severity.
Proof.
  intros Hne. revert self. induction ms as [|m ms IH]; intros self; simpl.
  - reflexivity.
  - unfold report_errors in IH. rewrite IH.
    apply diagnostic_log_other. congruence.
Qed.

Lemma report_errors_line (ms : list string) (self : IPGeoFeedValidator) :
  line_number (report_errors ms self) = line_number self
  /\ line (report_errors ms self) = line self.
Proof.
  revert self. induction ms as [|m ms IH]; intros self.
  - split; reflexivity.
  - change (report_errors (m :: ms) self)
      with (report_errors ms (diagnostic "ERROR" m self)).
    destruct (IH (diagnostic "ERROR" m self)) as [-> ->].
    split; reflexivity.
Qed.

Lemma errors_only_ret {A : Type} (a : A) : errors_only (ret a).
Proof. intros self. exists a, []. reflexivity. Qed.

Lemma errors_only_bind {A B : Type} (m : M A) (f : A -> M B) :
  errors_only m -> (forall a, errors_only (f a)) -> errors_only (bind m f).
Proof.
  intros Hm Hf self. unfold bind.
  destruct (Hm self) as (a & ms & ->).
  destruct (Hf a (report_errors ms self)) as (b & ms' & ->).
  exists b, (ms ++ ms'). rewrite report_errors_app. reflexivity.
Qed.

Lemma errors_only_ReportError (message : string) :
  errors_only (_ReportError message).
Proof.
  intros self. exists tt, [message]. apply _ReportError_spec.
Qed.

Lemma errors_only_ext {A : Type} (m m' : M A) :
  (forall self, m self = m' self) -> errors_only m' -> errors_only m.
Proof. intros Heq Hm self. rewrite Heq. apply Hm. Qed.

Create HintDb errors.
#[local] Hint Resolve errors_only_ret errors_only_bind errors_only_ReportError
  : errors.

Lemma errors_only_alpha2 (alpha2code : string) :
  errors_only (_IsAlpha2CodeCorrect alpha2code).
Proof.
  unfold _IsAlpha2CodeCorrect.
  repeat match goal with |- context [if ?b then _ else _] => destruct b end;
    auto with errors.
Qed.

Lemma errors_only_region (region_code : string) :
  errors_only (_IsRegionCodeCorrect region_code).
Proof.
  unfold _IsRegionCodeCorrect.
  destruct (split_cons "-" region_code) as (p & ps & ->).
  unfold getitem. simpl.
  repeat match goal with |- context [if ?b then _ else _] => destruct b end;
    auto with errors.
  apply errors_only_bind; [apply errors_only_ret|]. intros p0.
  apply errors_only_bind; [apply errors_only_alpha2|].
  intros [|]; apply errors_only_ret.
Qed.

Section Records.

Variable lib : ipaddr.module.

Lemma errors_only_address (field : string) :
  errors_only (_IsIPAddressOrPrefixCorrect lib field).
Proof.
  unfold _IsIPAddressOrPrefixCorrect, _IsCIDRCorrect, _IsIPAddressCorrect.
  repeat match goal with
         | |- context [if ?b then _ else _] => destruct b
         | |- context [match ?o with Some _ => _ | None => _ end] => destruct o
         end; auto with errors.
Qed.

(** The checks of fields 0 to 2 return on every non-empty record, and log
    ERRORs only. *)
Lemma field_checks_errors (f : string) (fs : list string) :
  errors_only (field_checks lib (f :: fs)).
Proof.
  unfold field_checks, assert_, getitem. simpl.
  apply errors_only_bind; [apply errors_only_ret|]. intros _.
  apply errors_only_bind; [apply errors_only_ret|]. intros f0.
  apply errors_only_bind; [apply errors_only_address|]. intros ok0.
  destruct fs as [|f1 [|f2 fs]]; simpl.
  - auto with errors.
  - apply errors_only_bind; [|auto with errors].
    apply errors_only_bind; [apply errors_only_ret|]. intros x.
    apply errors_only_bind; [apply errors_only_alpha2|]. auto with errors.
  - apply errors_only_bind.
    + apply errors_only_bind; [apply errors_only_ret|]. intros x.
      apply errors_only_bind; [apply errors_only_alpha2|]. auto with errors.
    + intros ok1.
      apply errors_only_bind; [apply errors_only_ret|]. intros x.
      apply errors_only_bind; [apply errors_only_region|]. auto with errors.
Qed.

(** [_ValidateFields] is the checks of fields 0 to 2 followed by the
    field-count test, whatever the checks returned. *)
Lemma _ValidateFields_eq (fields : list string) (self : IPGeoFeedValidator) :
  _ValidateFields lib fields self
  = match field_checks lib fields self with
    | Ok (_, checked) =>
        if (length fields =? 5)%nat then Ok (tt, checked)
        else Ok (tt, diagnostic "WARNING" (count_message (length fields))
                       checked)
    | Raise e => Raise e
    end.
Proof.
  unfold _ValidateFields, field_checks, bind.
  destruct (assert_ _ self) as [[[] s0]|e]; [|reflexivity].
  destruct (getitem fields 0 s0) as [[f0 s1]|e]; [|reflexivity].
  destruct (_IsIPAddressOrPrefixCorrect lib f0 s1) as [[ok0 s2]|e];
    [|reflexivity].
  assert (Hcount : forall b : bool, forall s : IPGeoFeedValidator,
    (if negb (length fields =? 5)%nat
     then _ReportWarning (count_message (length fields)) else ret tt) s
    = match ret b s with
      | Ok (_, checked) =>
          if (length fields =? 5)%nat then Ok (tt, checked)
          else Ok (tt, diagnostic "WARNING" (count_message (length fields))
                         checked)
      | Raise e => Raise e
      end).
  { intros b s. destruct (length fields =? 5)%nat; simpl; [reflexivity|].
    apply _ReportWarning_spec. }
  destruct (1 <? length fields)%nat.
  - destruct (getitem fields 1 s2) as [[f1 s3]|e]; [|reflexivity].
    destruct (_IsAlpha2CodeCorrect f1 s3) as [[ok1 s4]|e]; [|reflexivity].
    cbn [ret].
    destruct (2 <? length fields)%nat.
    + destruct (getitem fields 2 s4) as [[f2 s5]|e]; [|reflexivity].
      destruct (_IsRegionCodeCorrect f2 s5) as [[ok2 s6]|e]; [|reflexivity].
      apply Hcount.
    + apply Hcount.
  - cbn [ret].
    destruct (2 <? length fields)%nat.
    + destruct (getitem fields 2 s2) as [[f2 s5]|e]; [|reflexivity].
      destruct (_IsRegionCodeCorrect f2 s5) as [[ok2 s6]|e]; [|reflexivity].
      apply Hcount.
    + apply Hcount.
Qed.

Lemma _FlushOutputStream_eq (self : IPGeoFeedValidator) :
  _FlushOutputStream self
  = Ok (tt, if is_correct_line self then self
            else write ("line " +:+ Py.str_of_nat (line_number self) +:+ ": "
                        +:+ line self +:+ nl +:+ nl) self).
Proof.
  unfold _FlushOutputStream. unfold_monad. simpl.
  destruct (is_correct_line self); reflexivity.
Qed.

(** The first statements of [_ValidateLine], and the branch on
    [_ShouldIgnoreLine]. *)
Lemma _ValidateLine_eq (line : string) (self : IPGeoFeedValidator) :
  _ValidateLine lib line self
  = if _ShouldIgnoreLine (Py.rstrip crlf line)
    then Ok (tt, enter_line line self)
    else (rows <- lift (csv.reader (Py.rstrip crlf line));;
          fields <- getitem rows 0;;
          _ValidateFields lib fields;;
          _FlushOutputStream) (enter_line line self).
Proof.
  unfold _ValidateLine.
  destruct (split_cons "#" (Py.rstrip crlf line)) as (p & ps & Hsplit).
  unfold enter_line. rewrite Hsplit. unfold getitem. simpl.
  unfold bind at 1. unfold modify at 1. unfold bind at 1. unfold ret at 1.
  unfold bind at 1. unfold modify at 1. unfold bind at 1. unfold modify at 1.
  unfold set_is_correct_line, set_line, set_line_number. simpl.
  rewrite Nat.add_1_r.
  destruct (_ShouldIgnoreLine (Py.rstrip crlf line)); reflexivity.
Qed.

End Records.

(** ** Lines the reader accepts *)

Lemma length_append_char (s : string) (c : ascii) :
  String.length (s +:+ String c EmptyString) = S (String.length s).
Proof.
  induction s as [|d s IH]; [reflexivity|].
  change (S (String.length (s +:+ String c EmptyString))
          = S (S (String.length s))).
  rewrite IH. reflexivity.
Qed.

Lemma parse_add_char_room (r : csv.ReaderObj) (c : ascii) :
  Z.of_nat (String.length (csv.field r)) < csv.field_limit ->
  exists r', csv.parse_add_char r c = Ok r'
    /\ csv.state r' = csv.state r
    /\ String.length (csv.field r') = S (String.length (csv.field r)).
Proof.
  intros Hroom. unfold csv.parse_add_char.
  destruct (csv.field_limit <=? _) eqn:E; [apply Z.leb_le in E; lia|].
  eexists. split; [reflexivity|]. split; [reflexivity|].
  apply length_append_char.
Qed.

Lemma plain_step (r : csv.ReaderObj) (c : ascii) :
  csv.is_newline c = false ->
  csv.state r <> csv.EAT_CRNL ->
  Z.of_nat (String.length (csv.field r)) < csv.field_limit ->
  exists r', csv.parse_process_char r (Some c) = Ok r'
    /\ csv.state r' <> csv.EAT_CRNL
    /\ (String.length (csv.field r') <= S (String.length (csv.field r)))%nat.
Proof.
  intros Hnl Hst Hroom.
  destruct (parse_add_char_room r c Hroom) as (ra & Hadd & Hsta & Hlen).
  destruct (parse_add_char_room (csv.set_state csv.START_FIELD r) c Hroom)
    as (rb & Haddb & Hstb & Hlenb).
  unfold csv.parse_process_char. rewrite Hnl, ?Hadd.
  destruct (csv.state r) eqn:Est; try congruence; rewrite ?Haddb, ?Hadd;
    repeat match goal with
           | |- context [if ?b then _ else _] => destruct b
           end;
    eexists; (split; [reflexivity|]); simpl in *;
    rewrite ?Hsta, ?Hstb, ?Hlen, ?Hlenb, ?Est; split; (discriminate || lia).
Qed.

Lemma plain_chars (line : string) (r : csv.ReaderObj) :
  Py.all_chars plain_char line = true ->
  csv.state r <> csv.EAT_CRNL ->
  Z.of_nat (String.length (csv.field r)) + Z.of_nat (String.length line)
    <= csv.field_limit ->
  exists r', csv.process_chars r line = Ok r'.
Proof.
  revert r. induction line as [|c line IH]; intros r Hall Hst Hroom.
  - eexists. reflexivity.
  - cbn [Py.all_chars] in Hall. apply andb_true_iff in Hall as [Hc Hall].
    unfold plain_char in Hc. apply andb_true_iff in Hc as [Hnul Hnl].
    apply negb_true_iff in Hnul, Hnl.
    cbn [String.length] in Hroom.
    destruct (plain_step r c Hnl Hst) as (r1 & Hstep & Hst1 & Hlen1); [lia|].
    cbn [csv.process_chars]. rewrite Hstep.
    apply IH; [exact Hall|exact Hst1|lia].
Qed.

Lemma eol_returns (r : csv.ReaderObj) :
  exists r', csv.parse_process_char r None = Ok r'.
Proof.
  unfold csv.parse_process_char. destruct (csv.state r); eauto.
Qed.

(** The reader returns one row on every line of at most [field_limit]
    characters that holds neither a NUL nor a line break. *)
Lemma reader_returns (line : string) :
  Py.all_chars plain_char line = true ->
  Z.of_nat (String.length line) <= csv.field_limit ->
  exists fields, csv.reader line = Ok [fields].
Proof.
  intros Hall Hlen.
  destruct (plain_chars line csv.parse_reset Hall) as [r Hr];
    [discriminate|simpl; lia|].
  destruct (eol_returns r) as [r' Hr'].
  assert (Hrows : exists rows, csv.reader line = Ok rows).
  { unfold csv.reader, csv.process_line. rewrite Hr, Hr'.
    repeat match goal with
           | |- context [if ?b then _ else _] => destruct b
           end; eauto. }
  destruct Hrows as [rows Hrows].
  destruct (reader_row _ _ Hrows) as (row & -> & _). eauto.
Qed.

(** ** Lines *)

Lemma parse_process_char_raises (r : csv.ReaderObj) (c : option ascii)
    (e : exn) :
  csv.parse_process_char r c = Raise e -> exists msg, e = csv_Error msg.
Proof.
  unfold csv.parse_process_char, csv.parse_add_char.
  destruct (csv.state r), c as [ch|]; simpl;
    repeat match goal with
           | |- context [if ?b then _ else _] => destruct b
           end;
    intros [= <-] || discriminate; eauto.
Qed.

Lemma process_chars_raises (line : string) (r : csv.ReaderObj) (e : exn) :
  csv.process_chars r line = Raise e -> exists msg, e = csv_Error msg.
Proof.
  revert r. induction line as [|c line IH]; simpl; intros r; [discriminate|].
  destruct (csv.parse_process_char r (Some c)) as [r'|e'] eqn:E.
  - apply IH.
  - intros [= <-]. exact (parse_process_char_raises _ _ _ E).
Qed.

(** The reader raises nothing but [csv.Error]. *)
Lemma reader_raises (line : string) (e : exn) :
  csv.reader line = Raise e -> exists msg, e = csv_Error msg.
Proof.
  unfold csv.reader, csv.process_line.
  destruct (csv.process_chars csv.parse_reset line) as [r|e'] eqn:E.
  - destruct (csv.parse_process_char r None) as [r'|e''] eqn:E'.
    + repeat match goal with
             | |- context [if ?b then _ else _] => destruct b
             end; discriminate.
    + intros [= <-]. exact (parse_process_char_raises _ _ _ E').
  - intros [= <-]. exact (process_chars_raises _ _ _ E).
Qed.

Lemma output_log_write (text : string) (self : IPGeoFeedValidator) :
  output_log (write text self) = output_log self.
Proof. reflexivity. Qed.

Section Lines.

Variable lib : ipaddr.module.

(** What [_ValidateLine] does with a line that is not skipped and that the
    reader splits into [fields]. *)
Lemma _ValidateLine_fields (input : string) (fields : list string)
    (self : IPGeoFeedValidator) :
  _ShouldIgnoreLine (Py.rstrip crlf input) = false ->
  csv.reader (Py.rstrip crlf input) = Ok [fields] ->
  exists is_correct messages,
    let checked := report_errors messages (enter_line input self) in
    let counted :=
      if (length fields =? 5)%nat then checked
      else diagnostic "WARNING" (count_message (length fields)) checked in
    field_checks lib fields (enter_line input self) = Ok (is_correct, checked)
    /\ _ValidateLine lib input self
       = Ok (tt, if is_correct_line counted then counted
                 else write ("line " +:+ Py.str_of_nat (line_number counted)
                             +:+ ": " +:+ line counted +:+ nl +:+ nl)
                        counted).
Proof.
  intros Hkeep Hrows.
  destruct (reader_fields _ _ Hkeep Hrows) as (f & fs & [= ->]).
  destruct (field_checks_errors lib f fs (enter_line input self))
    as (is_correct & messages & Hchecks).
  exists is_correct, messages. cbv zeta. split; [exact Hchecks|].
  rewrite _ValidateLine_eq, Hkeep, Hrows.
  transitivity ((_ValidateFields lib (f :: fs);; _FlushOutputStream)
                  (enter_line input self)); [reflexivity|].
  unfold bind. rewrite _ValidateFields_eq, Hchecks.
  destruct (length (f :: fs) =? 5)%nat; apply _FlushOutputStream_eq.
Qed.

(** C3: a line is skipped exactly when, stripped of surrounding whitespace,
    it is empty or begins with [#].  A skipped line changes nothing but the
    line counter, the displayed line and the validity flag: no field is
    parsed, the log and the sink are as before.  A line that is not skipped
    goes through the reader and the field checks.  The counter is
    incremented in both cases. *)
Theorem C3_skipped_lines (line : string) (self : IPGeoFeedValidator) :
  let stripped := Py.strip line in
  let skipped := stripped = EmptyString \/ Py.startswith "#" stripped = true in
  (_ShouldIgnoreLine (Py.rstrip crlf line) = true <-> skipped)
  /\ (skipped ->
      _ValidateLine lib line self = Ok (tt, enter_line line self))
  /\ (~ skipped ->
      _ValidateLine lib line self
      = (rows <- lift (csv.reader (Py.rstrip crlf line));;
         fields <- getitem rows 0;;
         _ValidateFields lib fields;;
         _FlushOutputStream) (enter_line line self))
  /\ line_number (enter_line line self) = S (line_number self)
  /\ output_log (enter_line line self) = output_log self
  /\ output_stream (enter_line line self) = output_stream self.
Proof.
  cbv zeta.
  assert (Hiff : _ShouldIgnoreLine (Py.rstrip crlf line) = true
                 <-> Py.strip line = EmptyString
                     \/ Py.startswith "#" (Py.strip line) = true).
  { unfold _ShouldIgnoreLine. rewrite strip_rstrip_crlf.
    rewrite length_zero_is_empty.
    destruct (Py.startswith "#" (Py.strip line)).
    - split; auto.
    - rewrite is_empty_true. split; [auto|]. intros [H|H]; [exact H|].
      discriminate H. }
  split; [exact Hiff|]. rewrite _ValidateLine_eq.
  split; [|split; [|repeat split]].
  - intros Hskip. apply Hiff in Hskip. rewrite Hskip. reflexivity.
  - intros Hkeep.
    destruct (_ShouldIgnoreLine (Py.rstrip crlf line)); [|reflexivity].
    exfalso. apply Hkeep, Hiff. reflexivity.
Qed.

(** C6: for a line that is not skipped and that the reader splits into [N]
    fields, the checks of fields 0 to 2 run and log no WARNING, whatever
    [N] is and whatever they find; after them the WARNING log has gained
    the one line [5 fields were expected (got N).] when [N] is not 5, and
    nothing when [N] is 5; the ERROR log is the one the checks left. *)
Theorem C6_field_count (line : string) (fields : list string)
    (self : IPGeoFeedValidator) :
  _ShouldIgnoreLine (Py.rstrip crlf line) = false ->
  csv.reader (Py.rstrip crlf line) = Ok [fields] ->
  exists (is_correct : bool) (checked final : IPGeoFeedValidator),
    field_checks lib fields (enter_line line self) = Ok (is_correct, checked)
    /\ output_log checked !! "WARNING" = output_log self !! "WARNING"
    /\ _ValidateLine lib line self = Ok (tt, final)
    /\ output_log final !! "ERROR" = output_log checked !! "ERROR"
    /\ output_log final !! "WARNING"
       = if (length fields =? 5)%nat then output_log self !! "WARNING"
         else Some (default [] (output_log self !! "WARNING")
                    ++ ["WARNING: 5 fields were expected (got "
                        +:+ Py.str_of_nat (length fields) +:+ ")." +:+ nl]).
Proof.
  intros Hkeep Hrows.
  destruct (_ValidateLine_fields line fields self Hkeep Hrows)
    as (is_correct & messages & Hchecks & Hline).
  cbv zeta in Hchecks, Hline.
  set (checked := report_errors messages (enter_line line self)) in *.
  assert (Hwarn : output_log checked !! "WARNING"
                  = output_log self !! "WARNING").
  { unfold checked. rewrite report_errors_other by discriminate.
    reflexivity. }
  exists is_correct, checked. eexists.
  split; [exact Hchecks|]. split; [exact Hwarn|]. split; [exact Hline|].
  destruct (length fields =? 5)%nat.
  - destruct (is_correct_line checked); rewrite ?output_log_write;
      split; auto.
  - match goal with
    | |- context [if ?b then _ else _] => destruct b
    end; rewrite ?output_log_write;
      (split; [apply diagnostic_log_other; discriminate|]);
      rewrite diagnostic_log_same, Hwarn; unfold count_message;
      rewrite !append_assoc; reflexivity.
Qed.

(** C9, amended: on a line that is not skipped the reader either raises
    [csv.Error] or yields one row with at least one field, and it yields
    the row whenever the line holds no NUL and no line break and is no
    longer than the field limit; [_ValidateLine] raises nothing but
    [csv.Error], so the assertion of [_ValidateFields] never fails. *)
Theorem C9_fields_nonempty (line : string) (self : IPGeoFeedValidator) :
  _ShouldIgnoreLine (Py.rstrip crlf line) = false ->
  ((exists msg, csv.reader (Py.rstrip crlf line) = Raise (csv_Error msg))
   \/ (exists f fs, csv.reader (Py.rstrip crlf line) = Ok [f :: fs]))
  /\ (Py.all_chars plain_char (Py.rstrip crlf line) = true ->
      Z.of_nat (String.length (Py.rstrip crlf line)) <= csv.field_limit ->
      exists f fs, csv.reader (Py.rstrip crlf line) = Ok [f :: fs])
  /\ (forall fields rest,
        csv.reader (Py.rstrip crlf line) = Ok (fields :: rest) ->
        assert_ (0 <? length fields)%nat self = Ok (tt, self))
  /\ (forall e, _ValidateLine lib line self = Raise e ->
        exists msg, e = csv_Error msg).
Proof.
  intros Hkeep.
  destruct (csv.reader (Py.rstrip crlf line)) as [rows|e] eqn:Hrows.
  - destruct (reader_fields _ _ Hkeep Hrows) as (f & fs & ->).
    split; [right; eauto|]. split; [eauto|]. split.
    + intros fields rest [= <- <-]. reflexivity.
    + intros e.
      destruct (_ValidateLine_fields line (f :: fs) self Hkeep Hrows)
        as (is_correct & messages & _ & ->).
      discriminate.
  - destruct (reader_raises _ _ Hrows) as [msg ->].
    split; [left; eauto|]. split; [|split; [discriminate|]].
    { intros Hplain Hlen.
      destruct (reader_returns _ Hplain Hlen) as [fields Hfields].
      rewrite Hfields in Hrows. discriminate Hrows. }
    intros e. rewrite _ValidateLine_eq, Hkeep, Hrows.
    intros [= <-]. eauto.
Qed.

(** ** The command *)

(** C5: when validation completes, [main] exits with status 1 if the ERROR
    log holds a line and with status 0 if it holds none; how many lines it
    holds beyond the first, and what the WARNING log holds, makes no
    difference. *)
Theorem C5_exit_status (stdin : list string) (v : IPGeoFeedValidator) :
  Validate lib stdin __init__ = Ok (tt, v) ->
  main lib stdin
  = Exit (if (CountErrors v "ERROR" =? 0)%nat then 0 else 1)
  /\ (exit_status (main lib stdin) <> 0
      <-> exists l ls, output_log v !! "ERROR" = Some (l :: ls))
  /\ (exit_status (main lib stdin) = 0
      <-> default [] (output_log v !! "ERROR") = [])
  /\ (CountErrors v "ERROR" = 0%nat ->
      forall warnings, output_log v !! "WARNING" = Some warnings ->
      exit_status (main lib stdin) = 0).
Proof.
  intros Hrun. unfold main. rewrite Hrun. unfold CountErrors.
  destruct (output_log v !! "ERROR") as [[|l ls]|]; simpl.
  - repeat split; try reflexivity; try congruence.
    intros (l & ls & [=]).
  - repeat split; try reflexivity; try discriminate; eauto.
  - repeat split; try reflexivity; try congruence.
    intros (l & ls & [=]).
Qed.

End Lines.

(** ** Comments and field splitting *)

(** C2: the fields come from the whole line, not from the text before the
    first [#]: on [commented_line] the text before [#] splits into five
    fields and validates without a diagnostic, while [_ValidateLine] checks
    the six fields of the whole line, two of them made of comment text, and
    logs the field-count WARNING; the text before [#] only appears in the
    context block. *)
Theorem C2_fields_from_raw_line :
  _ShouldIgnoreLine commented_line = false
  /\ Py.split "#" commented_line !! 0%nat
     = Some "192.0.2.1,US,US-CA,San Jose,95101 "
  /\ csv.reader "192.0.2.1,US,US-CA,San Jose,95101 "
     = Ok [["192.0.2.1"; "US"; "US-CA"; "San Jose"; "95101 "]]
  /\ csv.reader commented_line
     = Ok [["192.0.2.1"; "US"; "US-CA"; "San Jose"; "95101 # lab";
            " building 2"]]
  /\ (forall lib self,
        _ValidateLine lib commented_line self
        = (_ValidateFields lib
             ["192.0.2.1"; "US"; "US-CA"; "San Jose"; "95101 # lab";
              " building 2"];;
           _FlushOutputStream) (enter_line commented_line self))
  /\ run [commented_line]
     = Ok ([], ["WARNING: 5 fields were expected (got 6)." +:+ nl],
           Some ["WARNING: 5 fields were expected (got 6)." +:+ nl;
                 "line 1: 192.0.2.1,US,US-CA,San Jose,95101 " +:+ nl +:+ nl])
  /\ run ["192.0.2.1,US,US-CA,San Jose,95101 "] = Ok ([], [], Some []).
Proof.
  do 4 (split; [vm_compute; reflexivity|]).
  split; [|split; vm_compute; reflexivity].
  intros lib self. rewrite _ValidateLine_eq.
  replace (Py.rstrip crlf commented_line) with commented_line
    by (vm_compute; reflexivity).
  replace (_ShouldIgnoreLine commented_line) with false
    by (vm_compute; reflexivity).
  replace (csv.reader commented_line)
    with (Ok [["192.0.2.1"; "US"; "US-CA"; "San Jose"; "95101 # lab";
               " building 2"]])
    by (vm_compute; reflexivity).
  reflexivity.
Qed.

(** C9 as stated fails on [broken_line]: the line is not skipped, and the
    reader raises instead of yielding a row. *)
Lemma C9_counterexample :
  _ShouldIgnoreLine (Py.rstrip crlf broken_line) = false
  /\ csv.reader (Py.rstrip crlf broken_line)
     = Raise (csv_Error
         "new-line character seen in unquoted field - do you need to open the file in universal-newline mode?")
  /\ ~ (forall line,
          _ShouldIgnoreLine (Py.rstrip crlf line) = false ->
          exists f fs rest,
            csv.reader (Py.rstrip crlf line) = Ok ((f :: fs) :: rest)).
Proof.
  assert (Hkeep : _ShouldIgnoreLine (Py.rstrip crlf broken_line) = false)
    by (vm_compute; reflexivity).
  assert (Hraise : csv.reader (Py.rstrip crlf broken_line)
     = Raise (csv_Error
         "new-line character seen in unquoted field - do you need to open the file in universal-newline mode?"))
    by (vm_compute; reflexivity).
  split; [exact Hkeep|]. split; [exact Hraise|].
  intros Hall. destruct (Hall broken_line Hkeep) as (f & fs & rest & Hrows).
  rewrite Hraise in Hrows. discriminate Hrows.
Qed.

(** ** The theorems at concrete inputs *)

Lemma C1_witness :
  Py.contains "/" "10.0.0.1/24" = true
  /\ ipaddr.IPNetwork ipaddr_v4.lib "10.0.0.1/24"
     = Some (ipaddr.mkNet 4 167772161 24)
  /\ Z.land 167772161 (ipaddr.hostmask (ipaddr.mkNet 4 167772161 24)) = 1
  /\ _IsIPAddressOrPrefixCorrect ipaddr_v4.lib "10.0.0.1/24" __init__
     = Ok (false, diagnostic "ERROR" network_message __init__)
  /\ Py.contains "/" "10.0.0.0/24" = true
  /\ ipaddr.net_is_private ipaddr_v4.lib (ipaddr.mkNet 4 167772160 24) = true
  /\ _IsIPAddressOrPrefixCorrect ipaddr_v4.lib "10.0.0.0/24" __init__
     = Ok (false, __init__).
Proof.
  split; [reflexivity|]. split; [reflexivity|]. split; [reflexivity|]. split.
  { exact (proj1 (C1_cidr_diagnostics ipaddr_v4.lib "10.0.0.1/24" __init__
                    eq_refl)). }
  split; [reflexivity|]. split; [reflexivity|].
  exact (proj1 (C1_cidr_diagnostics ipaddr_v4.lib "10.0.0.0/24" __init__
                  eq_refl)).
Defined.

Lemma C4_witness :
  Py.contains "/" "256.256.256.256" = false
  /\ _IsIPAddressOrPrefixCorrect ipaddr_v4.lib "256.256.256.256" __init__
     = Ok (false, diagnostic "ERROR" address_message __init__)
  /\ _IsIPAddressOrPrefixCorrect ipaddr_v4.lib "192.168.1.1" __init__
     = Ok (false, diagnostic "ERROR" private_message __init__)
  /\ _IsIPAddressOrPrefixCorrect ipaddr_v4.lib "192.0.2.1" __init__
     = Ok (true, __init__).
Proof.
  split; [reflexivity|]. split; [|split].
  - exact (C4_bare_address ipaddr_v4.lib "256.256.256.256" __init__ eq_refl).
  - exact (C4_bare_address ipaddr_v4.lib "192.168.1.1" __init__ eq_refl).
  - exact (C4_bare_address ipaddr_v4.lib "192.0.2.1" __init__ eq_refl).
Defined.

Lemma C3_witness :
  Py.strip ("  # a comment" +:+ nl) = "# a comment"
  /\ _ValidateLine ipaddr_v4.lib ("  # a comment" +:+ nl) __init__
     = Ok (tt, enter_line ("  # a comment" +:+ nl) __init__)
  /\ output_log (enter_line ("  # a comment" +:+ nl) __init__) = ∅.
Proof.
  split; [reflexivity|].
  pose proof (C3_skipped_lines ipaddr_v4.lib ("  # a comment" +:+ nl)
                __init__) as H.
  cbv zeta in H. destruct H as (_ & Hskip & _ & _ & Hlog & _).
  split; [|exact Hlog]. apply Hskip. right. reflexivity.
Defined.

Lemma C5_witness :
  Validate ipaddr_v4.lib ["256.256.256.256,,,,"; "192.0.2.1,US"] __init__
  = Ok (tt, validated ["256.256.256.256,,,,"; "192.0.2.1,US"])
  /\ main ipaddr_v4.lib ["256.256.256.256,,,,"; "192.0.2.1,US"] = Exit 1.
Proof.
  assert (H : Validate ipaddr_v4.lib
                ["256.256.256.256,,,,"; "192.0.2.1,US"] __init__
              = Ok (tt, validated ["256.256.256.256,,,,"; "192.0.2.1,US"]))
    by (vm_compute; reflexivity).
  split; [exact H|].
  exact (proj1 (C5_exit_status ipaddr_v4.lib _ _ H)).
Defined.

Lemma C6_witness :
  _ShouldIgnoreLine (Py.rstrip crlf ("10.1.2.3,US" +:+ nl)) = false
  /\ csv.reader (Py.rstrip crlf ("10.1.2.3,US" +:+ nl))
     = Ok [["10.1.2.3"; "US"]]
  /\ exists final,
       _ValidateLine ipaddr_v4.lib ("10.1.2.3,US" +:+ nl) __init__
       = Ok (tt, final)
       /\ output_log final !! "WARNING"
          = Some ["WARNING: 5 fields were expected (got 2)." +:+ nl].
Proof.
  split; [reflexivity|]. split; [reflexivity|].
  destruct (C6_field_count ipaddr_v4.lib ("10.1.2.3,US" +:+ nl)
              ["10.1.2.3"; "US"] __init__ eq_refl eq_refl)
    as (is_correct & checked & final & _ & _ & Hline & _ & Hwarn).
  exists final. split; [exact Hline|exact Hwarn].
Defined.

Lemma C7_witness :
  _IsRegionCodeCorrect "CA" __init__
  = Ok (false, diagnostic "ERROR" region_message __init__)
  /\ _IsRegionCodeCorrect "US-CA" __init__
     = _IsRegionCodeCorrect "US-!!" __init__.
Proof.
  destruct (C7_region_code "CA" __init__) as (_ & Hnodash & _ & Hrest).
  split.
  - apply Hnodash; [discriminate|reflexivity].
  - exact (Hrest "US" "CA" "!!" eq_refl).
Defined.

Lemma C9_witness :
  _ShouldIgnoreLine (Py.rstrip crlf ("192.0.2.1,US,US-CA,," +:+ nl)) = false
  /\ ((exists msg,
         csv.reader (Py.rstrip crlf ("192.0.2.1,US,US-CA,," +:+ nl))
         = Raise (csv_Error msg))
      \/ (exists f fs,
            csv.reader (Py.rstrip crlf ("192.0.2.1,US,US-CA,," +:+ nl))
            = Ok [f :: fs])).
Proof.
  split; [reflexivity|].
  exact (proj1 (C9_fields_nonempty ipaddr_v4.lib
                  ("192.0.2.1,US,US-CA,," +:+ nl) __init__ eq_refl)).
Defined.

(** * Further properties *)

(** ** Runs of diagnostics *)

Lemma report_cons (d : string * string) (ds : list (string * string))
    (self : IPGeoFeedValidator) :
  report (d :: ds) self = report ds (diagnostic (fst d) (snd d) self).
Proof. reflexivity. Qed.

Lemma report_app (ds ds' : list (string * string))
    (self : IPGeoFeedValidator) :
  report (ds ++ ds') self = report ds' (report ds self).
Proof. apply fold_left_app. Qed.

Lemma report_errors_report (ms : list string) (self : IPGeoFeedValidator) :
  report_errors ms self = report (map (pair "ERROR") ms) self.
Proof.
  revert self. induction ms as [|m ms IH]; intros self; [reflexivity|].
  change (report_errors (m :: ms) self)
    with (report_errors ms (diagnostic "ERROR" m self)).
  rewrite IH. reflexivity.
Qed.

Lemma report_line (ds : list (string * string)) (self : IPGeoFeedValidator) :
  line_number (report ds self) = line_number self
  /\ line (report ds self) = line self.
Proof.
  revert self. induction ds as [|d ds IH]; intros self.
  - split; reflexivity.
  - rewrite report_cons.
    destruct (IH (diagnostic (fst d) (snd d) self)) as [-> ->].
    split; reflexivity.
Qed.

Lemma report_flag (ds : list (string * string)) (self : IPGeoFeedValidator) :
  is_correct_line (report ds self)
  = match ds with [] => is_correct_line self | _ => false end.
Proof.
  revert self. induction ds as [|d ds IH]; intros self; [reflexivity|].
  rewrite report_cons, IH. destruct ds; reflexivity.
Qed.

Lemma report_stream (ds : list (string * string))
    (self : IPGeoFeedValidator) :
  output_stream (report ds self)
  = match output_stream self with
    | Some w => Some (w ++ map (fun d => output_line (fst d) (snd d)) ds)
    | None => None
    end.
Proof.
  revert self. induction ds as [|d ds IH]; intros self.
  - simpl. destruct (output_stream self); [rewrite app_nil_r|]; reflexivity.
  - rewrite report_cons, IH. simpl.
    destruct (output_stream self); [|reflexivity].
    rewrite <- app_assoc. reflexivity.
Qed.

(** The log of a severity after a run of diagnostics: the lines of the
    diagnostics of that severity, appended in order. *)
Lemma report_log (ds : list (string * string)) (self : IPGeoFeedValidator)
    (severity : string) :
  default [] (output_log (report ds self) !! severity)
  = default [] (output_log self !! severity)
    ++ map (fun d => output_line (fst d) (snd d))
           (filter (fun d => fst d = severity) ds).
Proof.
  revert self. induction ds as [|d ds IH]; intros self.
  - simpl. rewrite app_nil_r. reflexivity.
  - rewrite report_cons, IH, filter_cons.
    destruct (decide (fst d = severity)) as [Heq|Hne].
    + rewrite <- Heq at 1 2. rewrite diagnostic_log_same. simpl.
      rewrite <- app_assoc. reflexivity.
    + rewrite diagnostic_log_other by exact Hne. reflexivity.
Qed.

(** ** The checks as functions of the field *)

Lemma logs_ret {A : Type} (a : A) : logs (ret a) [].
Proof. intros self. exists a. reflexivity. Qed.

Lemma logs_bind {A B : Type} (m : M A) (f : A -> M B)
    (ms ms' : list string) :
  logs m ms -> (forall a, logs (f a) ms') -> logs (bind m f) (ms ++ ms').
Proof.
  intros Hm Hf self. unfold bind.
  destruct (Hm self) as (a & ->).
  destruct (Hf a (report_errors ms self)) as (b & ->).
  exists b. rewrite report_errors_app. reflexivity.
Qed.

Lemma logs_ret_bind {A B : Type} (a : A) (f : A -> M B)
    (ms : list string) :
  logs (f a) ms -> logs (bind (ret a) f) ms.
Proof. intros Hf self. exact (Hf self). Qed.

Lemma logs_eq {A : Type} (m : M A) (ms ms' : list string) :
  ms = ms' -> logs m ms -> logs m ms'.
Proof. intros ->. exact id. Qed.

Lemma logs_of_eq {A : Type} (m : M A) (ms : list string) :
  (forall self, exists a, m self = Ok (a, report_errors ms self)) ->
  logs m ms.
Proof. exact id. Qed.

Lemma logs_alpha2 (alpha2code : string) :
  logs (_IsAlpha2CodeCorrect alpha2code) (alpha2_errors alpha2code).
Proof.
  intros self. rewrite _IsAlpha2CodeCorrect_eq. unfold alpha2_errors.
  destruct (Py.is_empty alpha2code || _); eexists; reflexivity.
Qed.

Lemma logs_region (region_code : string) :
  logs (_IsRegionCodeCorrect region_code) (region_errors region_code).
Proof.
  intros self. unfold region_errors.
  destruct region_code as [|c rest] eqn:Ecode; [eexists; reflexivity|].
  rewrite <- Ecode. replace (Py.is_empty region_code) with false
    by (rewrite Ecode; reflexivity).
  destruct (Py.contains "-" region_code) eqn:Edash.
  - destruct (contains_decompose _ _ Edash) as (pre & post & -> & Hpre).
    rewrite (_IsRegionCodeCorrect_dash pre post self Hpre).
    rewrite (split_first _ _ _ Hpre). apply logs_alpha2.
  - unfold _IsRegionCodeCorrect. rewrite length_zero_is_empty, Edash, Ecode.
    cbn [Py.is_empty negb]. unfold bind. rewrite _ReportError_spec.
    eexists. reflexivity.
Qed.

Section Checks.

Variable lib : ipaddr.module.

Lemma logs_address (field : string) :
  logs (_IsIPAddressOrPrefixCorrect lib field) (address_errors lib field).
Proof.
  intros self. unfold _IsIPAddressOrPrefixCorrect, address_errors.
  destruct (Py.contains "/" field).
  - rewrite _IsCIDRCorrect_eq.
    destruct (ipaddr.IPNetwork lib field) as [ipprefix|];
      [destruct (ipaddr.network_ip ipprefix =? ipaddr._ip ipprefix)|];
      eexists; reflexivity.
  - rewrite _IsIPAddressCorrect_eq.
    destruct (ipaddr.IPAddress lib field) as [ip|];
      [destruct (ipaddr.ip_is_private lib ip)|];
      eexists; reflexivity.
Qed.

Lemma logs_then_ret {A B : Type} (m : M A) (g : A -> B) (ms : list string) :
  logs m ms -> logs (bind m (fun a => ret (g a))) ms.
Proof.
  intros Hm. apply (logs_eq _ (ms ++ [])); [apply app_nil_r|].
  apply logs_bind; [exact Hm|]. intros a. apply logs_ret.
Qed.

(** The checks of fields 0 to 2 log the ERRORs of field 0, of field 1 if
    there is one, and of field 2 if there is one, in that order. *)
Lemma field_checks_logs (f0 : string) (fs : list string) :
  logs (field_checks lib (f0 :: fs))
       (address_errors lib f0
        ++ match fs !! 0%nat with
           | Some f1 => alpha2_errors f1
           | None => []
           end
        ++ match fs !! 1%nat with
           | Some f2 => region_errors f2
           | None => []
           end).
Proof.
  unfold field_checks, assert_, getitem. simpl.
  apply logs_ret_bind, logs_ret_bind.
  apply logs_bind; [apply logs_address|]. intros ok0.
  destruct fs as [|f1 [|f2 fs]]; simpl.
  - apply (logs_bind _ _ []); intros; apply logs_ret.
  - apply logs_bind; [|intros; apply logs_ret].
    apply logs_ret_bind, logs_then_ret, logs_alpha2.
  - apply logs_bind.
    + apply logs_ret_bind, logs_then_ret, logs_alpha2.
    + intros ok1. apply logs_ret_bind, logs_then_ret, logs_region.
Qed.

(** [_ValidateFields] on a record: its diagnostics are a function of the
    fields, and the validator they are logged to plays no part. *)
Lemma _ValidateFields_report (f0 : string) (fs : list string)
    (self : IPGeoFeedValidator) :
  _ValidateFields lib (f0 :: fs) self
  = Ok (tt, report (record_diagnostics lib (f0 :: fs)) self).
Proof.
  rewrite _ValidateFields_eq.
  destruct (field_checks_logs f0 fs self) as (ok & ->).
  unfold record_diagnostics. rewrite report_app, <- report_errors_report.
  change ((f0 :: fs) !! 0%nat) with (Some f0).
  change ((f0 :: fs) !! 1%nat) with (fs !! 0%nat).
  change ((f0 :: fs) !! 2%nat) with (fs !! 1%nat).
  destruct (length (f0 :: fs) =? 5)%nat; reflexivity.
Qed.

Lemma flushed_enter_line (input : string) (self : IPGeoFeedValidator) :
  flushed (report [] (enter_line input self)) = enter_line input self.
Proof. reflexivity. Qed.

(** [_ValidateLine] through [line_diagnostics]: the line alone decides the
    diagnostics; the validator supplies the counter and receives them. *)
Lemma _ValidateLine_report (input : string) (self : IPGeoFeedValidator) :
  _ValidateLine lib input self
  = match line_diagnostics lib input with
    | Ok ds => Ok (tt, flushed (report ds (enter_line input self)))
    | Raise e => Raise e
    end.
Proof.
  rewrite _ValidateLine_eq. unfold line_diagnostics. cbv zeta.
  destruct (_ShouldIgnoreLine (Py.rstrip crlf input)) eqn:Hkeep;
    [reflexivity|].
  destruct (csv.reader (Py.rstrip crlf input)) as [rows|e] eqn:Hrows;
    [|reflexivity].
  destruct (reader_fields _ _ Hkeep Hrows) as (f & fs & ->).
  transitivity ((_ValidateFields lib (f :: fs);; _FlushOutputStream)
                  (enter_line input self)); [reflexivity|].
  unfold bind. rewrite _ValidateFields_report. apply _FlushOutputStream_eq.
Qed.

End Checks.

(** ** What a feed can log *)

Lemma known_error_diagnostic (m : string) :
  In m error_messages -> known_diagnostic ("ERROR", m).
Proof. intros Hin. left. split; [reflexivity|exact Hin]. Qed.

Lemma alpha2_errors_known (alpha2code : string) :
  Forall (fun m => In m error_messages) (alpha2_errors alpha2code).
Proof.
  unfold alpha2_errors. destruct (Py.is_empty alpha2code || _).
  - constructor.
  - constructor; [|constructor]. simpl. auto 10.
Qed.

Lemma region_errors_known (region_code : string) :
  Forall (fun m => In m error_messages) (region_errors region_code).
Proof.
  unfold region_errors.
  destruct (Py.is_empty region_code); [constructor|].
  destruct (Py.contains "-" region_code); [apply alpha2_errors_known|].
  constructor; [|constructor]. simpl. auto 10.
Qed.

Lemma address_errors_known (lib : ipaddr.module) (field : string) :
  Forall (fun m => In m error_messages) (address_errors lib field).
Proof.
  unfold address_errors.
  repeat match goal with
         | |- context [if ?b then _ else _] => destruct b
         | |- context [match ?o with Some _ => _ | None => _ end] => destruct o
         end;
    first [apply Forall_nil_2 | (constructor; [|constructor]); simpl; auto 10].
Qed.

Lemma record_diagnostics_known (lib : ipaddr.module) (fields : list string) :
  Forall known_diagnostic (record_diagnostics lib fields).
Proof.
  unfold record_diagnostics. apply Forall_app. split.
  - apply Forall_map.
    assert (Hthree : forall o : option string, forall f : string -> list string,
              (forall x, Forall (fun m => In m error_messages) (f x)) ->
              Forall (fun m => In m error_messages)
                     (match o with Some x => f x | None => [] end)).
    { intros [x|] f Hf; [apply Hf|constructor]. }
    eapply Forall_impl;
      [|intros m Hm; exact (known_error_diagnostic m Hm)].
    repeat (apply Forall_app; split).
    + apply (Hthree _ (address_errors lib)), address_errors_known.
    + apply (Hthree _ alpha2_errors), alpha2_errors_known.
    + apply (Hthree _ region_errors), region_errors_known.
  - destruct (length fields =? 5)%nat eqn:E; [constructor|].
    apply Nat.eqb_neq in E. constructor; [|constructor].
    right. split; [reflexivity|]. exists (length fields). split; [exact E|].
    reflexivity.
Qed.

Lemma line_diagnostics_known (lib : ipaddr.module) (input : string)
    (ds : list (string * string)) :
  line_diagnostics lib input = Ok ds -> Forall known_diagnostic ds.
Proof.
  unfold line_diagnostics. cbv zeta.
  destruct (_ShouldIgnoreLine _); [intros [= <-]; constructor|].
  destruct (csv.reader _) as [rows|e]; [|discriminate].
  intros [= <-]. apply record_diagnostics_known.
Qed.

(** The reader is the only source of exceptions. *)
Lemma line_diagnostics_raises (lib : ipaddr.module) (input : string)
    (e : exn) :
  line_diagnostics lib input = Raise e -> exists msg, e = csv_Error msg.
Proof.
  unfold line_diagnostics. cbv zeta.
  destruct (_ShouldIgnoreLine _); [discriminate|].
  destruct (csv.reader _) as [rows|e'] eqn:Hrows; [discriminate|].
  intros [= <-]. exact (reader_raises _ _ Hrows).
Qed.

Lemma flushed_keeps (self : IPGeoFeedValidator) :
  line_number (flushed self) = line_number self
  /\ line (flushed self) = line self
  /\ output_log (flushed self) = output_log self.
Proof. unfold flushed. destruct (is_correct_line self); repeat split. Qed.

Section Feeds.

Variable lib : ipaddr.module.

Lemma Validate_cons (input : string) (feed : list string)
    (self : IPGeoFeedValidator) :
  Validate lib (input :: feed) self
  = match line_diagnostics lib input with
    | Ok ds =>
        Validate lib feed (flushed (report ds (enter_line input self)))
    | Raise e => Raise e
    end.
Proof.
  cbn [Validate]. unfold bind. rewrite _ValidateLine_report.
  destruct (line_diagnostics lib input); reflexivity.
Qed.

(** What a feed does to the counter and to the log: one count per line,
    and the lines of a run of known diagnostics appended to the log. *)
Lemma Validate_effect (feed : list string) (self final : IPGeoFeedValidator) :
  Validate lib feed self = Ok (tt, final) ->
  exists ds,
    Forall known_diagnostic ds
    /\ line_number final = (line_number self + length feed)%nat
    /\ forall severity,
         default [] (output_log final !! severity)
         = default [] (output_log self !! severity)
           ++ map (fun d => output_line (fst d) (snd d))
                  (filter (fun d => fst d = severity) ds).
Proof.
  revert self. induction feed as [|input feed IH]; intros self.
  - intros [= <-]. exists []. split; [constructor|].
    split; [simpl; lia|]. intros severity. simpl.
    rewrite app_nil_r. reflexivity.
  - rewrite Validate_cons.
    destruct (line_diagnostics lib input) as [ds1|e] eqn:Hline;
      [|discriminate].
    intros (ds2 & Hknown & Hcount & Hlog)%IH.
    destruct (flushed_keeps (report ds1 (enter_line input self)))
      as (Hn & _ & Hl).
    rewrite Hn in Hcount. rewrite (proj1 (report_line _ _)) in Hcount.
    exists (ds1 ++ ds2). split; [|split].
    + apply Forall_app. split; [|exact Hknown].
      exact (line_diagnostics_known _ _ _ Hline).
    + rewrite Hcount. simpl. lia.
    + intros severity. rewrite Hlog, Hl, report_log.
      rewrite filter_app, map_app, app_assoc. reflexivity.
Qed.

Lemma Validate_app (feed1 feed2 : list string) (self : IPGeoFeedValidator) :
  Validate lib (feed1 ++ feed2) self
  = (Validate lib feed1;; Validate lib feed2) self.
Proof.
  revert self. induction feed1 as [|input feed1 IH]; intros self;
    [reflexivity|].
  cbn [app Validate]. unfold bind in *.
  destruct (_ValidateLine lib input self) as [[[] s1]|e]; [|reflexivity].
  apply IH.
Qed.

(** Logging to a disabled sink: every step commutes with [mute]. *)
Lemma report_mute (ds : list (string * string)) (self : IPGeoFeedValidator) :
  report ds (mute self) = mute (report ds self).
Proof.
  revert self. induction ds as [|d ds IH]; intros self; [reflexivity|].
  rewrite !report_cons, <- IH. reflexivity.
Qed.

Lemma flushed_mute (self : IPGeoFeedValidator) :
  flushed (mute self) = mute (flushed self).
Proof.
  unfold flushed. cbn [mute is_correct_line].
  destruct (is_correct_line self); reflexivity.
Qed.

Lemma Validate_mute (feed : list string) (self : IPGeoFeedValidator) :
  Validate lib feed (mute self)
  = match Validate lib feed self with
    | Ok (_, final) => Ok (tt, mute final)
    | Raise e => Raise e
    end.
Proof.
  revert self. induction feed as [|input feed IH]; intros self;
    [reflexivity|].
  rewrite !Validate_cons.
  destruct (line_diagnostics lib input) as [ds|e]; [|reflexivity].
  change (enter_line input (mute self)) with (mute (enter_line input self)).
  rewrite report_mute, flushed_mute. apply IH.
Qed.

End Feeds.

(** ** Skipping, and the displayed line *)

Lemma lstrip_with_all (p : ascii -> bool) (s : string) :
  Py.all_chars p s = true -> Py.lstrip_with p s = EmptyString.
Proof.
  induction s as [|c s IH]; simpl; [reflexivity|].
  intros [Hc Hs]%andb_true_iff. rewrite Hc. exact (IH Hs).
Qed.

Lemma rstrip_with_empty (p : ascii -> bool) (s : string) :
  Py.rstrip_with p s = EmptyString -> Py.all_chars p s = true.
Proof.
  induction s as [|c s IH]; simpl; [reflexivity|].
  destruct (Py.is_empty (Py.rstrip_with p s)) eqn:Et; simpl;
    [|discriminate].
  destruct (p c); [|discriminate]. intros _.
  apply IH, is_empty_true, Et.
Qed.

(** Stripping the right end does not change the first character that
    stripping the left end leaves. *)
Lemma first_char_strip (p : ascii -> bool) (s : string) :
  first_char (Py.lstrip_with p (Py.rstrip_with p s))
  = first_char (Py.lstrip_with p s).
Proof.
  induction s as [|c s IH]; [reflexivity|].
  cbn [Py.rstrip_with Py.lstrip_with].
  destruct (Py.is_empty (Py.rstrip_with p s)) eqn:Et;
    destruct (p c) eqn:Ec; cbn [andb Py.lstrip_with]; rewrite ?Ec.
  - apply is_empty_true in Et.
    rewrite (lstrip_with_all p s (rstrip_with_empty p s Et)). reflexivity.
  - reflexivity.
  - exact IH.
  - reflexivity.
Qed.

Lemma _ShouldIgnoreLine_first_char (text : string) :
  _ShouldIgnoreLine text
  = match first_char (Py.lstrip_with Py.isspace text) with
    | None => true
    | Some c => Ascii.eqb c "#"
    end.
Proof.
  unfold _ShouldIgnoreLine, Py.strip.
  rewrite <- (first_char_strip Py.isspace text).
  destruct (Py.lstrip_with Py.isspace (Py.rstrip_with Py.isspace text))
    as [|c rest]; [reflexivity|].
  unfold Py.startswith. cbn [String.prefix first_char].
  destruct (ascii_dec "#" c) as [<-|Hne].
  - destruct rest; reflexivity.
  - cbn [String.length Nat.eqb]. symmetry. apply Ascii.eqb_neq. congruence.
Qed.

(** The first part of a split: it holds no separator, and the string is it
    alone or it, a separator and a rest. *)
Lemma split_head (sep : ascii) (s : string) :
  Py.contains sep (hd EmptyString (Py.split sep s)) = false
  /\ (s = hd EmptyString (Py.split sep s)
      \/ exists post, s = hd EmptyString (Py.split sep s) +:+ String sep post).
Proof.
  destruct (Py.contains sep s) eqn:E.
  - destruct (contains_decompose _ _ E) as (pre & post & -> & Hpre).
    rewrite (split_first _ _ _ Hpre). simpl. split; [exact Hpre|]. eauto.
  - rewrite (split_without _ _ E). simpl. split; [exact E|]. left.
    reflexivity.
Qed.

(** ** Lines without quotes *)

Lemma append_empty_r (s : string) : s +:+ EmptyString = s.
Proof.
  induction s as [|c s IH]; [reflexivity|].
  change (String c (s +:+ EmptyString) = String c s). f_equal. exact IH.
Qed.

Lemma unquoted_step (r : csv.ReaderObj) (c : ascii) :
  unquoted_char c = true -> between_fields r ->
  Z.of_nat (String.length (csv.field r)) < csv.field_limit ->
  exists r', csv.parse_process_char r (Some c) = Ok r'
    /\ between_fields r'
    /\ if Ascii.eqb c csv.delimiter
       then csv.fields r' = csv.fields r ++ [csv.field r]
            /\ csv.field r' = EmptyString
       else csv.fields r' = csv.fields r
            /\ csv.field r' = csv.field r +:+ String c EmptyString.
Proof.
  unfold unquoted_char, plain_char.
  intros [[_ Hnl%negb_true_iff]%andb_true_iff Hq%negb_true_iff]%andb_true_iff.
  intros Hbetween Hroom.
  assert (Hadd : csv.parse_add_char r c
                 = Ok {| csv.state := csv.state r; csv.fields := csv.fields r;
                         csv.field := csv.field r +:+ String c EmptyString |}).
  { unfold csv.parse_add_char.
    destruct (csv.field_limit <=? _) eqn:E; [apply Z.leb_le in E; lia|].
    reflexivity. }
  unfold csv.parse_process_char.
  destruct Hbetween as [[Hst Hfield]|Hst]; rewrite Hst, Hnl, ?Hq, ?Hadd;
    destruct (Ascii.eqb c csv.delimiter);
    eexists; (split; [reflexivity|]); simpl; unfold between_fields; simpl;
    auto.
Qed.

Lemma unquoted_chars (text : string) (r : csv.ReaderObj) :
  Py.all_chars unquoted_char text = true -> between_fields r ->
  Z.of_nat (String.length (csv.field r)) + Z.of_nat (String.length text)
    <= csv.field_limit ->
  exists r', csv.process_chars r text = Ok r'
    /\ between_fields r'
    /\ csv.fields r' ++ [csv.field r']
       = csv.fields r ++ prepend (csv.field r) (Py.split csv.delimiter text).
Proof.
  revert r. induction text as [|c text IH]; intros r Hall Hbetween Hroom.
  - exists r. split; [reflexivity|]. split; [exact Hbetween|].
    simpl. rewrite append_empty_r. reflexivity.
  - cbn [Py.all_chars] in Hall. apply andb_true_iff in Hall as [Hc Hall].
    cbn [String.length] in Hroom.
    destruct (unquoted_step r c Hc Hbetween) as (r1 & Hstep & Hb1 & Hr1);
      [lia|].
    cbn [csv.process_chars Py.split]. rewrite Hstep.
    destruct (split_cons csv.delimiter text) as (p & ps & Hsplit).
    destruct (Ascii.eqb c csv.delimiter).
    + destruct Hr1 as [Hfields Hfield].
      destruct (IH r1 Hall Hb1) as (r' & Hrun & Hb' & Hout);
        [rewrite Hfield; simpl; lia|].
      exists r'. split; [exact Hrun|]. split; [exact Hb'|].
      rewrite Hout, Hfields, Hfield, Hsplit. simpl.
      rewrite append_empty_r, <- app_assoc. reflexivity.
    + destruct Hr1 as [Hfields Hfield].
      destruct (IH r1 Hall Hb1) as (r' & Hrun & Hb' & Hout);
        [rewrite Hfield, length_append_char; lia|].
      exists r'. split; [exact Hrun|]. split; [exact Hb'|].
      rewrite Hout, Hfields, Hfield, Hsplit. simpl.
      rewrite append_assoc. reflexivity.
Qed.

(** On a non-empty line without quote, NUL or line break, and no longer
    than the field limit, the reader splits at the commas. *)
Lemma reader_unquoted (text : string) :
  text <> EmptyString ->
  Py.all_chars unquoted_char text = true ->
  Z.of_nat (String.length text) <= csv.field_limit ->
  csv.reader text = Ok [Py.split csv.delimiter text].
Proof.
  intros Hne Hall Hlen. destruct text as [|c text]; [congruence|].
  assert (Hnl : csv.is_newline c = false).
  { cbn [Py.all_chars] in Hall. apply andb_true_iff in Hall as [Hc _].
    unfold unquoted_char, plain_char in Hc.
    apply andb_true_iff in Hc as [[_ Hn]%andb_true_iff _].
    apply negb_true_iff in Hn. exact Hn. }
  destruct (unquoted_chars (String c text)
              (csv.set_state csv.START_FIELD csv.parse_reset) Hall)
    as (r & Hrun & Hbetween & Hout);
    [left; split; reflexivity|simpl csv.field; simpl String.length in *; lia|].
  assert (Hrun' : csv.process_chars csv.parse_reset (String c text) = Ok r).
  { rewrite <- Hrun. cbn [csv.process_chars].
    replace (csv.parse_process_char csv.parse_reset (Some c))
      with (csv.parse_process_char
              (csv.set_state csv.START_FIELD csv.parse_reset) (Some c));
      [reflexivity|].
    unfold csv.parse_process_char. simpl. rewrite Hnl. reflexivity. }
  unfold csv.reader, csv.process_line. rewrite Hrun'.
  destruct (split_cons csv.delimiter (String c text)) as (p & ps & Hsplit).
  rewrite Hsplit in Hout |- *.
  change (csv.fields r ++ [csv.field r] = p :: ps) in Hout.
  unfold csv.parse_process_char.
  destruct Hbetween as [[-> _]| ->]; simpl; rewrite Hout; reflexivity.
Qed.

(** ** Records and lines as functions of their text *)

Lemma errors_at_most_one :
  (forall lib field, (length (address_errors lib field) <= 1)%nat)
  /\ (forall code, (length (alpha2_errors code) <= 1)%nat)
  /\ (forall code, (length (region_errors code) <= 1)%nat).
Proof.
  assert (Ha : forall code, (length (alpha2_errors code) <= 1)%nat).
  { intros code. unfold alpha2_errors.
    destruct (Py.is_empty code || _); simpl; lia. }
  split; [|split; [exact Ha|]].
  - intros lib field. unfold address_errors.
    repeat match goal with
           | |- context [if ?b then _ else _] => destruct b
           | |- context [match ?o with Some _ => _ | None => _ end] =>
               destruct o
           end; simpl; lia.
  - intros code. unfold region_errors.
    destruct (Py.is_empty code); [simpl; lia|].
    destruct (Py.contains "-" code); [apply Ha|simpl; lia].
Qed.

(** X1: [_ValidateFields] raises [AssertionError] on the empty record and
    returns on every other; the diagnostics it logs are a function of the
    fields alone, logged to whatever validator it runs on: at most three
    ERRORs, for fields 0, 1 and 2 in that order, then at most one
    WARNING. *)
Theorem X1_record_diagnostics (lib : ipaddr.module) (fields : list string)
    (self : IPGeoFeedValidator) :
  _ValidateFields lib fields self
  = match fields with
    | [] => Raise AssertionError
    | _ :: _ => Ok (tt, report (record_diagnostics lib fields) self)
    end
  /\ exists errors warnings,
       record_diagnostics lib fields
       = map (pair "ERROR") errors ++ map (pair "WARNING") warnings
       /\ (length errors <= 3)%nat /\ (length errors <= length fields)%nat
       /\ (length warnings <= 1)%nat.
Proof.
  split.
  - destruct fields as [|f0 fs]; [reflexivity|].
    apply _ValidateFields_report.
  - unfold record_diagnostics.
    destruct errors_at_most_one as (Haddr & Halpha & Hregion).
    eexists.
    exists (if (length fields =? 5)%nat then []
            else [count_message (length fields)]).
    split; [|split; [|split]].
    + f_equal. destruct (length fields =? 5)%nat; reflexivity.
    + rewrite !length_app.
      pose proof (Haddr lib) as Ha.
      destruct (fields !! 0%nat) as [f0|]; [specialize (Ha f0)|];
        destruct (fields !! 1%nat) as [f1|]; [specialize (Halpha f1)| |
                                              specialize (Halpha f1)|];
        destruct (fields !! 2%nat) as [f2|]; try specialize (Hregion f2);
        simpl; lia.
    + rewrite !length_app.
      destruct fields as [|f0 [|f1 [|f2 fs]]]; simpl;
        try specialize (Haddr lib f0); try specialize (Halpha f1);
        try specialize (Hregion f2); lia.
    + destruct (length fields =? 5)%nat; simpl; lia.
Qed.

(** X2: what [_ValidateLine] does with a line is decided by the line alone.
    If the reader raises, so does [_ValidateLine].  Otherwise the line has a
    list of diagnostics (none if it is skipped): each is appended to the log
    of its severity and written to the sink in order; the line is left
    marked valid exactly when the list is empty; and when it is not, one
    context block follows on the sink, with the new line number and the
    text before the first [#].  Nothing is written to a disabled sink. *)
Theorem X2_line_output (lib : ipaddr.module) (input : string)
    (self : IPGeoFeedValidator) :
  match line_diagnostics lib input with
  | Raise e => _ValidateLine lib input self = Raise e
  | Ok ds =>
      exists final,
        _ValidateLine lib input self = Ok (tt, final)
        /\ is_correct_line final = match ds with [] => true | _ => false end
        /\ (forall severity,
              default [] (output_log final !! severity)
              = default [] (output_log self !! severity)
                ++ map (fun d => output_line (fst d) (snd d))
                       (filter (fun d => fst d = severity) ds))
        /\ output_stream final
           = match output_stream self with
             | None => None
             | Some w =>
                 Some (w ++ map (fun d => output_line (fst d) (snd d)) ds
                         ++ match ds with
                            | [] => []
                            | _ =>
                                ["line "
                                 +:+ Py.str_of_nat (S (line_number self))
                                 +:+ ": "
                                 +:+ hd EmptyString
                                       (Py.split "#" (Py.rstrip crlf input))
                                 +:+ nl +:+ nl]
                            end)
             end
  end.
Proof.
  rewrite _ValidateLine_report.
  destruct (line_diagnostics lib input) as [ds|e]; [|reflexivity].
  eexists. split; [reflexivity|].
  set (entered := enter_line input self).
  assert (Hflag : is_correct_line (report ds entered)
                  = match ds with [] => true | _ => false end).
  { rewrite report_flag. reflexivity. }
  destruct (report_line ds entered) as [Hn Hl].
  destruct (flushed_keeps (report ds entered)) as (_ & _ & Hlog).
  split; [|split].
  - unfold flushed. destruct ds as [|d ds]; [reflexivity|].
    rewrite Hflag. exact Hflag.
  - intros severity. rewrite Hlog, report_log. reflexivity.
  - unfold flushed, context_block. rewrite Hflag, Hn, Hl.
    destruct ds as [|d ds].
    + simpl. destruct (output_stream self); [|reflexivity].
      rewrite app_nil_r. reflexivity.
    + cbn [output_stream write]. rewrite report_stream.
      change (output_stream entered) with (output_stream self).
      destruct (output_stream self); [|reflexivity].
      rewrite <- app_assoc. reflexivity.
Qed.

(** X3: disabling the sink with [SetOutputStream(None)] before a feed
    changes nothing but the sink: validation raises the same exception or
    ends in the same validator with its sink disabled, so the logs and the
    counts are those of a run with a sink. *)
Theorem X3_sink_disabled (lib : ipaddr.module) (feed : list string)
    (self : IPGeoFeedValidator) :
  (SetOutputStream None;; Validate lib feed) self
  = match Validate lib feed self with
    | Ok (_, final) => Ok (tt, mute final)
    | Raise e => Raise e
    end
  /\ forall final, output_log (mute final) = output_log final
                   /\ line_number (mute final) = line_number final
                   /\ output_stream (mute final) = None
                   /\ forall severity,
                        CountErrors (mute final) severity
                        = CountErrors final severity.
Proof.
  split; [|intros final; repeat split].
  exact (Validate_mute lib feed self).
Qed.

(** X4: when a feed is validated to the end, the line counter has advanced
    by the number of lines of the feed, skipped lines included. *)
Theorem X4_line_counter (lib : ipaddr.module) (feed : list string)
    (self final : IPGeoFeedValidator) :
  Validate lib feed self = Ok (tt, final) ->
  line_number final = (line_number self + length feed)%nat.
Proof.
  intros (ds & _ & Hcount & _)%Validate_effect. exact Hcount.
Qed.

(** X5: validation only appends to the log: for every severity the lines
    logged before a feed are a prefix of the lines logged after it, and
    [CountErrors] never decreases. *)
Theorem X5_log_grows (lib : ipaddr.module) (feed : list string)
    (self final : IPGeoFeedValidator) :
  Validate lib feed self = Ok (tt, final) ->
  forall severity,
    (exists added,
       default [] (output_log final !! severity)
       = default [] (output_log self !! severity) ++ added)
    /\ (CountErrors self severity <= CountErrors final severity)%nat.
Proof.
  intros (ds & _ & _ & Hlog)%Validate_effect severity.
  unfold CountErrors. rewrite Hlog. split; [eauto|].
  rewrite length_app. lia.
Qed.

(** X6: after a feed validated by a fresh validator, every line of the log
    is [<SEVERITY>: <message>] and a newline, where the severity is ERROR
    and the message one of the five error messages, or the severity is
    WARNING and the message the field-count message for a count other than
    5; nothing is logged under any other severity. *)
Theorem X6_log_vocabulary (lib : ipaddr.module) (feed : list string)
    (final : IPGeoFeedValidator) :
  Validate lib feed __init__ = Ok (tt, final) ->
  (forall severity entry,
     In entry (default [] (output_log final !! severity)) ->
     exists message,
       known_diagnostic (severity, message)
       /\ entry = output_line severity message)
  /\ (forall severity,
        severity <> "ERROR" -> severity <> "WARNING" ->
        CountErrors final severity = 0%nat).
Proof.
  intros (ds & Hknown & _ & Hlog)%Validate_effect.
  assert (Hentries : forall severity entry,
            In entry (default [] (output_log final !! severity)) ->
            exists message,
              known_diagnostic (severity, message)
              /\ entry = output_line severity message).
  { intros severity entry. rewrite Hlog. simpl.
    intros ([sev message] & <- & Hin)%in_map_iff.
    apply list_elem_of_In, list_elem_of_filter in Hin as [Hsev Hin].
    simpl in Hsev. subst sev. exists message. split; [|reflexivity].
    rewrite Forall_forall in Hknown. exact (Hknown _ Hin). }
  split; [exact Hentries|].
  intros severity Herr Hwarn. unfold CountErrors.
  destruct (default [] (output_log final !! severity)) as [|entry l] eqn:E;
    [reflexivity|].
  destruct (Hentries severity entry) as (message & [[Hs _]|[Hs _]] & _);
    [rewrite E; left; reflexivity| |]; simpl in Hs; congruence.
Qed.

(** X7: only the first three fields of a record are looked at; of the
    others only the number counts.  Two records with the same first three
    fields and the same length are validated alike. *)
Theorem X7_unvalidated_fields (lib : ipaddr.module)
    (fields fields' : list string) (self : IPGeoFeedValidator) :
  take 3 fields = take 3 fields' ->
  length fields = length fields' ->
  _ValidateFields lib fields self = _ValidateFields lib fields' self.
Proof.
  intros Htake Hlen.
  assert (Hlookup : forall i, (i < 3)%nat -> fields !! i = fields' !! i).
  { intros i Hi. rewrite <- (lookup_take_lt fields 3 i Hi).
    rewrite <- (lookup_take_lt fields' 3 i Hi), Htake. reflexivity. }
  assert (Hds : record_diagnostics lib fields
                = record_diagnostics lib fields').
  { unfold record_diagnostics.
    rewrite (Hlookup 0%nat), (Hlookup 1%nat), (Hlookup 2%nat), Hlen by lia.
    reflexivity. }
  destruct fields as [|f0 fs], fields' as [|f0' fs']; try discriminate Hlen.
  - reflexivity.
  - rewrite !_ValidateFields_report, Hds. reflexivity.
Qed.

(** X8: validating a feed made of two parts is validating the first part
    and then, if that returned, the second part on the validator it left;
    an exception in the first part is the exception of the whole. *)
Theorem X8_validate_app (lib : ipaddr.module) (feed1 feed2 : list string)
    (self : IPGeoFeedValidator) :
  Validate lib (feed1 ++ feed2) self
  = match Validate lib feed1 self with
    | Ok (_, middle) => Validate lib feed2 middle
    | Raise e => Raise e
    end.
Proof. exact (Validate_app lib feed1 feed2 self). Qed.

Lemma Validate_raises (lib : ipaddr.module) (feed : list string)
    (self : IPGeoFeedValidator) (e : exn) :
  Validate lib feed self = Raise e -> exists msg, e = csv_Error msg.
Proof.
  revert self. induction feed as [|input feed IH]; intros self;
    [discriminate|].
  rewrite Validate_cons.
  destruct (line_diagnostics lib input) as [ds|e'] eqn:Hline.
  - apply IH.
  - intros [= <-]. exact (line_diagnostics_raises _ _ _ Hline).
Qed.

(** X9: a line on which the reader raises ends the run: whatever was
    logged for the lines before it and whatever follows it, [main] ends
    with that exception uncaught, and the lines after it are not
    validated. *)
Theorem X9_reader_fault_aborts (lib : ipaddr.module)
    (before after : list string) (bad : string)
    (middle : IPGeoFeedValidator) (e : exn) :
  Validate lib before __init__ = Ok (tt, middle) ->
  line_diagnostics lib bad = Raise e ->
  Validate lib (before ++ bad :: after) __init__ = Raise e
  /\ main lib (before ++ bad :: after) = Uncaught e
  /\ main lib (before ++ bad :: after) = main lib (before ++ [bad]).
Proof.
  intros Hbefore Hbad.
  assert (Hrun : forall rest,
            Validate lib (before ++ bad :: rest) __init__ = Raise e).
  { intros rest. rewrite Validate_app. unfold bind. rewrite Hbefore.
    rewrite Validate_cons, Hbad. reflexivity. }
  split; [apply Hrun|]. unfold main. rewrite !Hrun. split; reflexivity.
Qed.

(** X10: the only exception that escapes [main] is [csv.Error]; the
    assertion of [_ValidateFields] and the two subscripts never fail. *)
Theorem X10_only_csv_error_escapes (lib : ipaddr.module)
    (stdin : list string) (e : exn) :
  main lib stdin = Uncaught e -> exists msg, e = csv_Error msg.
Proof.
  unfold main.
  destruct (Validate lib stdin __init__) as [[[] v]|e'] eqn:Hrun.
  - destruct (negb _); discriminate.
  - intros [= <-]. exact (Validate_raises _ _ _ _ Hrun).
Qed.

(** X11: a feed of blank and comment lines only is validated to the end
    without a diagnostic: the log and the sink are left as they were, the
    counter advances by the number of lines, and [main] exits with
    status 0. *)
Theorem X11_skipped_feed (lib : ipaddr.module) (feed : list string)
    (self : IPGeoFeedValidator) :
  Forall (fun input => _ShouldIgnoreLine (Py.rstrip crlf input) = true) feed ->
  (exists final,
     Validate lib feed self = Ok (tt, final)
     /\ output_log final = output_log self
     /\ output_stream final = output_stream self
     /\ line_number final = (line_number self + length feed)%nat)
  /\ main lib feed = Exit 0.
Proof.
  intros Hskip.
  assert (Hrun : forall s,
            exists final,
              Validate lib feed s = Ok (tt, final)
              /\ output_log final = output_log s
              /\ output_stream final = output_stream s
              /\ line_number final = (line_number s + length feed)%nat).
  { induction Hskip as [|input feed Hinput _ IH]; intros s.
    - exists s. repeat split. simpl. lia.
    - rewrite Validate_cons. unfold line_diagnostics. cbv zeta.
      rewrite Hinput. rewrite flushed_enter_line.
      destruct (IH (enter_line input s)) as (final & -> & Hlog & Hout & Hn).
      exists final. split; [reflexivity|]. rewrite Hlog, Hout, Hn.
      repeat split. simpl. lia. }
  split; [apply Hrun|].
  unfold main. destruct (Hrun __init__) as (final & -> & Hlog & _).
  unfold CountErrors. rewrite Hlog. reflexivity.
Qed.

(** X12: reporting a diagnostic raises the count of its severity by one,
    leaves the count of every other severity as it was, also when it is the
    first diagnostic of that severity, and marks the line invalid; a
    severity under which nothing was logged counts 0. *)
Theorem X12_count_after_report (severity message : string)
    (self : IPGeoFeedValidator) :
  (exists self',
     _ReportWithSeverity severity message self = Ok (tt, self')
     /\ CountErrors self' severity = S (CountErrors self severity)
     /\ (forall severity', severity <> severity' ->
           CountErrors self' severity' = CountErrors self severity')
     /\ is_correct_line self' = false)
  /\ (output_log self !! severity = None -> CountErrors self severity = 0%nat).
Proof.
  split.
  - rewrite _ReportWithSeverity_spec. eexists. split; [reflexivity|].
    split; [apply CountErrors_diagnostic|]. split; [|reflexivity].
    intros severity' Hne. unfold CountErrors.
    rewrite diagnostic_log_other by exact Hne. reflexivity.
  - intros Hnone. unfold CountErrors. rewrite Hnone. reflexivity.
Qed.

(** X13: on a line that is not skipped, holds no quote, NUL or inner line
    break and is no longer than the field limit, the fields validated are
    the pieces of the line between its commas. *)
Theorem X13_unquoted_line (lib : ipaddr.module) (input : string)
    (self : IPGeoFeedValidator) :
  _ShouldIgnoreLine (Py.rstrip crlf input) = false ->
  Py.all_chars unquoted_char (Py.rstrip crlf input) = true ->
  Z.of_nat (String.length (Py.rstrip crlf input)) <= csv.field_limit ->
  csv.reader (Py.rstrip crlf input)
  = Ok [Py.split "," (Py.rstrip crlf input)]
  /\ _ValidateLine lib input self
     = (_ValidateFields lib (Py.split "," (Py.rstrip crlf input));;
        _FlushOutputStream) (enter_line input self).
Proof.
  intros Hkeep Hall Hlen.
  assert (Hrows : csv.reader (Py.rstrip crlf input)
                  = Ok [Py.split "," (Py.rstrip crlf input)]).
  { apply reader_unquoted; [|exact Hall|exact Hlen].
    intros Hempty. rewrite Hempty in Hkeep. discriminate Hkeep. }
  split; [exact Hrows|].
  rewrite _ValidateLine_eq, Hkeep, Hrows. reflexivity.
Qed.

(** X14: whether a line is skipped depends on its first character that is
    not whitespace: the line is skipped when there is none or when it is
    [#], and kept otherwise, whatever follows. *)
Theorem X14_skip_first_char (input : string) :
  _ShouldIgnoreLine (Py.rstrip crlf input)
  = match first_char (Py.lstrip_with Py.isspace input) with
    | None => true
    | Some c => Ascii.eqb c "#"
    end.
Proof.
  rewrite <- _ShouldIgnoreLine_first_char.
  unfold _ShouldIgnoreLine. rewrite strip_rstrip_crlf. reflexivity.
Qed.

(** X15: the text kept for the context block of a line holds no [#]: it is
    the whole line without its terminators when that holds no [#], and
    otherwise the part of it before the first [#]. *)
Theorem X15_displayed_line (lib : ipaddr.module) (input : string)
    (self final : IPGeoFeedValidator) :
  _ValidateLine lib input self = Ok (tt, final) ->
  Py.contains "#" (line final) = false
  /\ (Py.rstrip crlf input = line final
      \/ exists comment,
           Py.rstrip crlf input = line final +:+ String "#" comment).
Proof.
  rewrite _ValidateLine_report.
  destruct (line_diagnostics lib input) as [ds|e]; [|discriminate].
  intros [= <-].
  rewrite (proj1 (proj2 (flushed_keeps _))), (proj2 (report_line _ _)).
  apply split_head.
Qed.

(** The log after a feed, from the diagnostics of its lines. *)
Lemma Validate_feed_diagnostics (lib : ipaddr.module) (feed : list string)
    (self : IPGeoFeedValidator) :
  match feed_diagnostics lib feed with
  | Raise e => Validate lib feed self = Raise e
  | Ok ds =>
      exists final,
        Validate lib feed self = Ok (tt, final)
        /\ forall severity,
             default [] (output_log final !! severity)
             = default [] (output_log self !! severity)
               ++ map (fun d => output_line (fst d) (snd d))
                      (filter (fun d => fst d = severity) ds)
  end.
Proof.
  revert self. induction feed as [|input feed IH]; intros self.
  - exists self. split; [reflexivity|]. intros severity. simpl.
    rewrite app_nil_r. reflexivity.
  - cbn [feed_diagnostics]. rewrite Validate_cons.
    destruct (line_diagnostics lib input) as [ds|e]; [|reflexivity].
    specialize (IH (flushed (report ds (enter_line input self)))).
    destruct (feed_diagnostics lib feed) as [ds'|e]; [|exact IH].
    destruct IH as (final & Hrun & Hlog). exists final.
    split; [exact Hrun|]. intros severity.
    rewrite Hlog, (proj2 (proj2 (flushed_keeps _))), report_log.
    rewrite filter_app, map_app, app_assoc. reflexivity.
Qed.

(** X16: the outcome of [main] is a function of the feed's text: if the
    reader raises on a line, [main] ends with that exception uncaught;
    otherwise validation returns, each count is the number of diagnostics
    of that severity among those of the lines, and the exit status is 0 when
    no line has an ERROR and 1 otherwise. *)
Theorem X16_main_outcome (lib : ipaddr.module) (stdin : list string) :
  match feed_diagnostics lib stdin with
  | Raise e => main lib stdin = Uncaught e
  | Ok ds =>
      (exists final,
         Validate lib stdin __init__ = Ok (tt, final)
         /\ forall severity,
              CountErrors final severity
              = length (filter (fun d => fst d = severity) ds))
      /\ main lib stdin
         = Exit (if (length (filter (fun d => fst d = "ERROR") ds) =? 0)%nat
                 then 0 else 1)
  end.
Proof.
  pose proof (Validate_feed_diagnostics lib stdin __init__) as H.
  unfold main.
  destruct (feed_diagnostics lib stdin) as [ds|e]; [|rewrite H; reflexivity].
  destruct H as (final & Hrun & Hlog).
  assert (Hcount : forall severity,
            CountErrors final severity
            = length (filter (fun d => fst d = severity) ds)).
  { intros severity. unfold CountErrors. rewrite Hlog.
    unfold __init__. cbn [output_log]. rewrite lookup_empty. simpl.
    apply length_map. }
  split; [exists final; split; [exact Hrun|exact Hcount]|].
  rewrite Hrun, Hcount.
  destruct (length (filter (fun d => fst d = "ERROR") ds)); reflexivity.
Qed.

(** ** The further properties at concrete inputs *)

Lemma X4_witness :
  Validate ipaddr_v4.lib ["# header" +:+ nl; nl; "192.0.2.1,US" +:+ nl]
    __init__
  = Ok (tt, validated ["# header" +:+ nl; nl; "192.0.2.1,US" +:+ nl])
  /\ line_number (validated ["# header" +:+ nl; nl; "192.0.2.1,US" +:+ nl])
     = 3%nat.
Proof.
  assert (H : Validate ipaddr_v4.lib
                ["# header" +:+ nl; nl; "192.0.2.1,US" +:+ nl] __init__
              = Ok (tt, validated
                          ["# header" +:+ nl; nl; "192.0.2.1,US" +:+ nl]))
    by (vm_compute; reflexivity).
  split; [exact H|]. exact (X4_line_counter ipaddr_v4.lib _ _ _ H).
Defined.

Lemma X5_witness :
  Validate ipaddr_v4.lib ["192.0.2.1,USA,,,"]
    (validated ["256.256.256.256,,,,"])
  = Ok (tt, validated ["256.256.256.256,,,,"; "192.0.2.1,USA,,,"])
  /\ CountErrors (validated ["256.256.256.256,,,,"]) "ERROR" = 1%nat
  /\ (1 <= CountErrors
             (validated ["256.256.256.256,,,,"; "192.0.2.1,USA,,,"])
             "ERROR")%nat.
Proof.
  assert (H : Validate ipaddr_v4.lib ["192.0.2.1,USA,,,"]
                (validated ["256.256.256.256,,,,"])
              = Ok (tt, validated
                          ["256.256.256.256,,,,"; "192.0.2.1,USA,,,"]))
    by (vm_compute; reflexivity).
  split; [exact H|]. split; [reflexivity|].
  exact (proj2 (X5_log_grows ipaddr_v4.lib _ _ _ H "ERROR")).
Defined.

Lemma X6_witness :
  Validate ipaddr_v4.lib ["256.256.256.256,,,,"; "192.0.2.1,US"] __init__
  = Ok (tt, validated ["256.256.256.256,,,,"; "192.0.2.1,US"])
  /\ CountErrors (validated ["256.256.256.256,,,,"; "192.0.2.1,US"]) "INFO"
     = 0%nat.
Proof.
  assert (H : Validate ipaddr_v4.lib
                ["256.256.256.256,,,,"; "192.0.2.1,US"] __init__
              = Ok (tt, validated ["256.256.256.256,,,,"; "192.0.2.1,US"]))
    by (vm_compute; reflexivity).
  split; [exact H|].
  apply (proj2 (X6_log_vocabulary ipaddr_v4.lib _ _ H)); discriminate.
Defined.

Lemma X7_witness :
  _ValidateFields ipaddr_v4.lib
    ["192.0.2.1"; "US"; "US-CA"; "San Jose"; "95101"] __init__
  = _ValidateFields ipaddr_v4.lib
      ["192.0.2.1"; "US"; "US-CA"; "not a city"; "-1"] __init__.
Proof.
  exact (X7_unvalidated_fields ipaddr_v4.lib
           ["192.0.2.1"; "US"; "US-CA"; "San Jose"; "95101"]
           ["192.0.2.1"; "US"; "US-CA"; "not a city"; "-1"]
           __init__ eq_refl eq_refl).
Defined.

Lemma X9_witness :
  Validate ipaddr_v4.lib ["256.256.256.256,,,,"] __init__
  = Ok (tt, validated ["256.256.256.256,,,,"])
  /\ line_diagnostics ipaddr_v4.lib broken_line
     = Raise (csv_Error
         "new-line character seen in unquoted field - do you need to open the file in universal-newline mode?")
  /\ main ipaddr_v4.lib
       (["256.256.256.256,,,,"] ++ broken_line :: ["192.0.2.1,US,US-CA,,"])
     = Uncaught (csv_Error
         "new-line character seen in unquoted field - do you need to open the file in universal-newline mode?").
Proof.
  assert (H : Validate ipaddr_v4.lib ["256.256.256.256,,,,"] __init__
              = Ok (tt, validated ["256.256.256.256,,,,"]))
    by (vm_compute; reflexivity).
  assert (Hbad : line_diagnostics ipaddr_v4.lib broken_line
     = Raise (csv_Error
         "new-line character seen in unquoted field - do you need to open the file in universal-newline mode?"))
    by (vm_compute; reflexivity).
  split; [exact H|]. split; [exact Hbad|].
  exact (proj1 (proj2 (X9_reader_fault_aborts ipaddr_v4.lib _
                         ["192.0.2.1,US,US-CA,,"] _ _ _ H Hbad))).
Defined.

Lemma X10_witness :
  main ipaddr_v4.lib [broken_line]
  = Uncaught (csv_Error
      "new-line character seen in unquoted field - do you need to open the file in universal-newline mode?")
  /\ exists msg,
       csv_Error
         "new-line character seen in unquoted field - do you need to open the file in universal-newline mode?"
       = csv_Error msg.
Proof.
  assert (H : main ipaddr_v4.lib [broken_line]
     = Uncaught (csv_Error
         "new-line character seen in unquoted field - do you need to open the file in universal-newline mode?"))
    by (vm_compute; reflexivity).
  split; [exact H|].
  exact (X10_only_csv_error_escapes ipaddr_v4.lib _ _ H).
Defined.

Lemma X11_witness :
  Forall (fun input => _ShouldIgnoreLine (Py.rstrip crlf input) = true)
         ["# header" +:+ nl; "   " +:+ nl; nl]
  /\ main ipaddr_v4.lib ["# header" +:+ nl; "   " +:+ nl; nl] = Exit 0.
Proof.
  assert (H : Forall
                (fun input => _ShouldIgnoreLine (Py.rstrip crlf input) = true)
                ["# header" +:+ nl; "   " +:+ nl; nl]).
  { repeat (constructor; [reflexivity|]). constructor. }
  split; [exact H|].
  exact (proj2 (X11_skipped_feed ipaddr_v4.lib _ __init__ H)).
Defined.

Lemma X13_witness :
  _ShouldIgnoreLine (Py.rstrip crlf ("192.0.2.1,US,US-CA,," +:+ nl)) = false
  /\ Py.all_chars unquoted_char
       (Py.rstrip crlf ("192.0.2.1,US,US-CA,," +:+ nl)) = true
  /\ csv.reader (Py.rstrip crlf ("192.0.2.1,US,US-CA,," +:+ nl))
     = Ok [["192.0.2.1"; "US"; "US-CA"; ""; ""]].
Proof.
  split; [reflexivity|]. split; [reflexivity|].
  refine (proj1 (X13_unquoted_line ipaddr_v4.lib
                   ("192.0.2.1,US,US-CA,," +:+ nl) __init__
                   eq_refl eq_refl _)).
  vm_compute. discriminate.
Defined.

Lemma X15_witness :
  _ValidateLine ipaddr_v4.lib commented_line __init__
  = Ok (tt, validated [commented_line])
  /\ line (validated [commented_line]) = "192.0.2.1,US,US-CA,San Jose,95101 "
  /\ Py.contains "#" (line (validated [commented_line])) = false.
Proof.
  assert (H : _ValidateLine ipaddr_v4.lib commented_line __init__
              = Ok (tt, validated [commented_line]))
    by (vm_compute; reflexivity).
  split; [exact H|]. split; [reflexivity|].
  exact (proj1 (X15_displayed_line ipaddr_v4.lib _ _ _ H)).
Defined.
